(* ===== verification/_CoqProject ===== *)
-Q . S2P
Prelude.v
PyValue.v
PyHeap.v
PyRepr.v
TextObjects.v
OptionItems.v
Elements.v
ButtonHeap.v
Blocks.v
Views.v
Schema.v
Decode.v
ViewSchema.v
BlockDecode.v
FragmentFacts.v
OptionFacts.v
