(* ===== verification/Prelude.v ===== *)
(** * A verified model of the Slack-App-Library block-kit builder

    The repository is a small Python library that builds the JSON
    payloads of Slack "block kit" views (modal dialogs and home tabs).
    It has two source files:

    - [src/modal.py]: the builder.  One function per UI object: text
      objects ([plain_text_object], [mrkdwn_object]), view fragments
      ([view], [submit], [close], [blocks], [header], [divider],
      [confirm]), the option-list helper [option_items], the
      interactive elements ([button], [plain_text_input],
      [static_select], [conversations_select], [users_select],
      [channels_select], [datepicker], [timepicker], [checkboxes],
      [radio_buttons], [overflow], [image]) and the layout blocks
      ([section], [actions], [input_type]).  Most of them take
      [**kwargs], read required keys with [kwargs[k]] (a [KeyError]
      when absent), add optional keys only when [kwargs.get(k)] is
      truthy, and build the result with dict displays and the
      shallow merge [{**a, **b}].  [section] and [input_type] dispatch
      on the string discriminator [kwargs['type']] and pass the same
      [kwargs] on to the element constructor.
    - [src/views.py]: example views composed from the builder
      ([blocks_schema], [first_view], [second_view]) and a final
      [print(first_view())].

    There is no state, I/O or concurrency in the code (apart from the
    final [print] of [views.py]); what makes it interesting is Python's
    data model: insertion-ordered dicts, the override semantics of
    [{**a, **b}], truthiness, subscripting and iteration of [str],
    [list] and [dict] values, the exceptions raised on a missing key or
    a wrong type, and the calling convention of a [**kwargs]-only
    function.  The development therefore models those faithfully and
    states the builder's behaviour, errors included, on top of them.

    ** Files (in dependency order)

    - [Prelude] (this file): the result type [res] with stdpp's monad
      classes ([x ← c; k] is Python's left-to-right evaluation that
      stops at the first exception), lemmas on [mapM] over [res] (list
      comprehensions whose body may raise; Section [ResLemmas]), the
      hint databases [pyb] (auto) and [pyb_rw] (autorewrite), the
      tactic [res_inv], and the equations of [String.append] (which
      stdpp hides from [simpl]).
    - [PyValue]: the Python object model the code relies on.  [value]
      (None, bool, int, str, list, dict) with an induction principle
      through nested lists and dicts; [exn] ([KeyError], [TypeError],
      [IndexError]); dicts as insertion-ordered association lists with
      [dict_lookup], [dict_set] ([d[k] = v]), [dict_merge]
      ([{**a, **b}]) and [dict_unpack] ([{**d1, **d2, ...}]);
      [truthy], [py_get] ([kwargs.get(k)]), [get_truthy] (the guard
      [if kwargs.get(k):]), [kw] ([kwargs[k]]), [getitem] ([x['k']]),
      [py_index0] ([x[0]]), [py_iter] (iteration), [is_str], [eq_str].
      Abstract specification of dicts: [to_map] into stdpp's [gmap],
      with the merge proved to be the right-biased map union
      ([to_map_merge]) and its key order stated ([dict_keys_merge]).
      Python's order-insensitive [==] is the setoid [dict_equiv], with
      [Proper] instances for lookup, assignment, merge and [to_map].
      [wf_value]/[wf_dict] is the invariant of JSON-like values: every
      dict, at any depth, has distinct keys; [wf_solve] proves it for
      the code's dict literals.  Equality of values ([value_eq_dec])
      and Python's [==] on dicts ([dict_equiv_dec], through the maps)
      are decidable.
    - [PyHeap]: the same object model with identity: a heap of list
      and dict objects ([hobj]), references ([hval]), dict displays
      that allocate a new dict ([display], [dict_lit]) and keep the
      references they are given, truthiness of an object by its
      contents ([htruthy]), and [freeze], the deep read of a heap value
      into a [value], with fuel for the depth of references.
    - [PyRepr]: CPython's [repr] of [value] ([py_repr], [py_str]):
      the quote [unicode_repr] chooses ([repr_quote]), the escape of
      each code point ([repr_char]), and [', '.join] ([join_comma])
      for lists and dicts.  It is what the final [print] of
      [views.py] would write.
    - [TextObjects]: [modal.py] lines 5-94 ([plain_text_object],
      [mrkdwn_object], [view], [submit], [close], [header], [divider],
      [confirm], [blocks]).
    - [OptionItems]: [modal.py] lines 185-193 ([option_items], split into
      [plain_option] and [record_option] for its two comprehensions).
    - [Elements]: [modal.py] lines 196-371, the twelve element
      constructors.  [add_if] is the guarded merge
      [if kwargs.get(k): schema = {**schema, **{out: f(kwargs[k])}}].
      The interface the blocks rely on is the record [element_spec]
      (constructor, required arguments in reading order, optional
      arguments with their output key and conversion) with four laws
      ([optional_law], [required_law], [missing_law], [wf_law]);
      [elements_table] lists the twelve constructors and
      [element_contract] discharges the laws for all of them.  A
      fifth law, [frame_law], states locality: a constructor reads no
      keyword outside its [es_reads] list.
    - [ButtonHeap]: [button], [plain_text_object] and [confirm]
      written over [PyHeap], one allocation per dict display of the
      source, in the order the code evaluates them ([button_h],
      [confirm_h], [plain_text_object_h]).
    - [Blocks]: [modal.py] lines 97-182 ([section], [actions],
      [input_type], with [attach] for the [{**schema, **{key: el}}]
      merge).  [section_ref] and [input_type_ref] are reference
      specifications driven by tables of the recognised
      discriminators ([section_accessories], [input_elements]); the
      code's [if]/[elif] chains are proved equivalent to them, and the
      other block theorems are proved through those references and
      through the element interface (never by unfolding an element).
      [ignores] and the frame laws give the locality of the blocks'
      elements.
    - [Views]: [views.py] ([blocks_schema], [first_view],
      [second_view], and the module run [views_module] with its
      [print] statement [print_stmt]), with [call_kwonly], Python's
      rule that a function declared with [**kwargs] only rejects
      positional arguments.
    - [Schema]: the typed data model of the specification, which is
      an abstract specification of the builder and not code: text
      objects, option lists (str options or records), confirmation
      dialogs and the twelve element kinds as Rocq types, each with
      its rendering ([render_text], [render_options],
      [render_confirm], [render_element]) and its encoding as the
      keyword arguments of its constructor ([kwargs_of_element],
      [element_builder]).  [valid_element] is the precondition the
      specification states (non-empty optional strings).
    - [Decode]: the converse direction for elements.  [decode_element]
      reads, from any keyword dict, the typed element a constructor of
      a given kind is asked for, the way the code reads its arguments
      ([str_arg] for [kwargs[k]], [opt_str_arg] and [flag_arg] for the
      truthiness guard, [confirm_arg] for the four-argument dialog,
      [options_of] for a homogeneous option list, [select_arg] for the
      copied [type]).
    - [ViewSchema]: the typed model of [Schema] continued for blocks
      ([block], [render_block], [block_build], [valid_block]) and
      views ([view_t], [render_view]); [assemble_view] composes a view
      the way [views.py] does, with [view] called by keywords.
    - [BlockDecode]: the converse direction for the two dispatching
      blocks: [decode_section] and [decode_input] read the typed block
      [section] and [input_type] are asked for, through the same
      tables and [decode_element].
    - [FragmentFacts] and [OptionFacts]: the theorems on the
      definitions of [TextObjects] and [OptionItems], kept apart from
      the definitions they are about.

    ** Theorems, by group (the ids C1-C37 of their doc comments)

    - elements: [button]'s exact output (C1), the interface contract
      of all twelve elements, locality included (C2), the
      confirmation dialog present, holding [confirm]'s result, exactly
      when all four confirmation arguments are truthy (C8), the key
      [initial_user] of [conversations_select] (C7), [button]'s errors
      (C28), the [IndexError] of the option-list elements on an empty
      list, raised before [action_id] is read (C35);
    - object identity: [button] on the heap refines [button] on values,
      error for error (C12); two calls with the same arguments return
      distinct, deep-equal dicts that share the caller's [value]
      object (C13);
    - blocks: dispatch equivalences (C4, C5), the [fields] form (C18),
      unrecognised discriminators (C19), accessories (C20), no
      [fields] with [text]/[accessory] (C21), the element of an input
      block independent of [label] and [optional] (C22), the accessory
      of a section independent of [section_text] (C23), the error
      order of [input_type] (C26), [optional] (C27), [label] as the
      last key of an input block (C36);
    - views and the module run: [TypeError] of the example views, and
      running [views.py] prints nothing and ends with it (C6);
    - text and options: [confirm]'s errors and its text objects
      without [emoji] (C31, C32), disjoint view fragments (C33), the
      two shapes of [option_items], with each option written out
      (C24, C25), its errors on a bad container (C29) and on a list
      of records holding a str (C34), a str argument (C30), one option
      per item (C37);
    - refinement of the typed model: every valid typed element is
      built by its constructor into exactly its rendering (C3),
      except a conversations select with an initial conversation,
      which differs in exactly one key (C16); every valid typed block
      is built by [header], [divider], [section], [actions] or
      [input_type] into its rendering (C9); a whole typed view is
      assembled from the fragments into its rendering (C10); for any
      keyword dict that decodes to a typed element, the constructor
      returns its rendering, so its output depends on nothing else
      (C11); every section and input block built from keyword
      arguments that decode to a typed block is its rendering (C14,
      C15); the block list of [second_view] is not the block list of
      any typed view (C17).

    The builder needs no fuel and no machine integers: every function
    of the code is total, and its only recursion is structural, on the
    lists and dicts it is given.  Fuel appears only in [freeze] of
    [PyHeap], the deep read of a heap value, whose depth of references
    is bounded by the fuel because a heap may hold cycles.  The
    refinement of [button] (C12) holds for any fuel [n] that reads
    the caller's arguments, with [n + 3] for the result: the result
    adds at most three levels of dicts above the arguments (the
    button, its [confirm] dialog, the dialog's text objects).

    ** The specification's error taxonomy

    The specification names six errors raised to the caller.  The code
    defines no exception class; what it does instead is proved:
    - MissingRequiredField: the [KeyError] of [kwargs[k]], for the
      first missing required argument in reading order (C2's
      [missing_law], C26, C28, C31);
    - UnknownVariant: nothing is raised; [section] builds a plain
      section (C19) and [input_type] an input block with no element
      (C5);
    - InvalidCombination: cannot arise in [section]: its single
      discriminator [type] selects either the [fields] form or one
      accessory, and no result holds both (C21); the [fields] form
      still requires [section_text] (C18);
    - IncompleteConfirmSpec: nothing is raised; the dialog is left out
      unless all four arguments are truthy (C8);
    - InconsistentOptionShape: the shape is decided by the first item
      alone; a mix is either converted silently (C24) or fails with
      the [TypeError] of indexing a str with a str (C34);
    - SchemaKeyCollision: the fragments of a view have disjoint keys
      (C33); inside a constructor a later key overrides an earlier one
      with [{**a, **b}] ([to_map_merge]), silently.

    ** Not modelled

    The transport layer and the caller application the specification
    mentions are not part of the repository.  The [import] of
    [views.py] only binds a name and is modelled as such
    ([views_module]).  Also not modelled: Python floats, dict keys
    that are not strings (the code only builds and receives
    str-keyed dicts), and strs with code points above 255: a Rocq
    [string] is read as a str whose code points are its bytes, and
    [repr_char] escapes exactly the code points below 256 that
    CPython's [str.isprintable] rejects.  Object identity is modelled
    for [button] and the two constructors it calls ([PyHeap],
    [ButtonHeap]); C12 proves that there the value model loses nothing
    but identity, and C13 shows the identity it loses: the caller's
    [value] object is shared by the results.  The heap model allocates
    one dict per dict display of the source; the extra short-lived
    dicts of CPython's compiled code (the items after a [**] unpack,
    the keyword dict of [confirm( **kwargs)]) are unreachable from any
    result, so the theorems state contents, sharing and freshness but
    nothing about the number or order of allocations.  The other
    constructors store the caller's references the same way (every
    [kwargs[k]] copied into a dict display), so their heap models
    would differ from [button_h] only in their keys; they are left in
    the value model.  There is no liveness property to state: nothing
    in the code waits or loops without bound.  The code has no machine
    integers, no size limits and no indexing other than [items[0]],
    whose empty case is the [IndexError] of C29 and C35.

    ** Next steps

    1. The converse direction of the refinement: every output of a
       builder, on arguments that are strings, lists and dicts, is the
       rendering of some typed object (the schema invariant).
    2. Heap models of the other constructors, on the pattern of
       [ButtonHeap]. *)

From stdpp Require Import base list strings.

(** ** The result of a Python computation: a value or an exception *)

Inductive res (E A : Type) : Type :=
| Ok (a : A)
| Err (e : E).
Arguments Ok {E A} a.
Arguments Err {E A} e.

#[export] Instance res_ret E : MRet (res E) := fun _ a => Ok a.
#[export] Instance res_bind E : MBind (res E) :=
  fun _ _ f m => match m with Ok a => f a | Err e => Err e end.
Arguments res_ret _ _ _ /.
Arguments res_bind _ _ _ _ !_ /.
#[export] Instance res_fmap E : FMap (res E) :=
  fun _ _ f m => match m with Ok a => Ok (f a) | Err e => Err e end.

Declare Scope py_scope.
Delimit Scope py_scope with py.

Create HintDb pyb.
Create Rewrite HintDb pyb_rw.

Section ResLemmas.
  Context {E : Type}.

Lemma bind_Ok {A B} (a : A) (f : A -> res E B) : (x ← Ok a; f x) = f a.
  Proof. reflexivity. Qed.

Lemma bind_Err {A B} (e : E) (f : A -> res E B) : (x ← Err e; f x) = Err e.
  Proof. reflexivity. Qed.

Lemma bind_eq_Ok {A B} (m : res E A) (f : A -> res E B) b :
    (x ← m; f x) = Ok b <-> exists a, m = Ok a /\ f a = Ok b.
  Proof.
    destruct m as [a|e]; simpl; split.
    - eauto.
    - by intros (? & [= ->] & ?).
    - discriminate.
    - by intros (? & ? & ?).
  Qed.

Lemma bind_eq_Err {A B} (m : res E A) (f : A -> res E B) e :
    (x ← m; f x) = Err e <-> m = Err e \/ exists a, m = Ok a /\ f a = Err e.
  Proof.
    destruct m as [a|e']; simpl; split.
    - eauto.
    - by intros [? | (? & [= ->] & ?)].
    - intros [= ->]. auto.
    - by intros [[= ->] | (? & ? & ?)].
  Qed.

  (** [mapM] over [res] is a list comprehension whose body may raise:
      it succeeds exactly when every element does, and it raises the
      exception of the first element that raises. *)
Lemma mapM_res_Ok {A B} (f : A -> res E B) (l : list A) (k : list B) :
    mapM f l = Ok k <-> Forall2 (fun x y => f x = Ok y) l k.
  Proof.
    revert k; induction l as [|x l IH]; intros k; cbn [mapM].
    - split; [intros [= <-]; constructor | by inversion 1].
    - rewrite bind_eq_Ok. split.
      + intros (y & Hy & Hk). apply bind_eq_Ok in Hk as (k' & Hk' & [= <-]).
        constructor; [done | by apply IH].
      + inversion 1 as [|? y ? k' Hy Hk]; subst. exists y. split; [done|].
        apply bind_eq_Ok. exists k'. split; [by apply IH | done].
  Qed.

Lemma mapM_res_length {A B} (f : A -> res E B) l k :
    mapM f l = Ok k -> length k = length l.
  Proof. rewrite mapM_res_Ok. intros H. symmetry. by eapply Forall2_length. Qed.

Lemma mapM_res_total {A B} (f : A -> B) (l : list A) :
    mapM (fun x => Ok (f x) : res E B) l = Ok (map f l).
  Proof. induction l as [|x l IH]; simpl; [done|]. by rewrite IH. Qed.

Lemma mapM_res_Err_first {A B} (f : A -> res E B) (l1 l2 : list A) x e :
    Forall (fun y => exists b, f y = Ok b) l1 -> f x = Err e ->
    mapM f (l1 ++ x :: l2) = Err e.
  Proof.
    intros Hok Hx. induction Hok as [|y l1 [b Hb] _ IH]; simpl.
    - by rewrite Hx.
    - rewrite Hb. simpl. by rewrite IH.
  Qed.
End ResLemmas.

(** ** Generic string lemmas *)

(** stdpp makes [String.append] opaque to [simpl]; its two equations. *)
Lemma string_app_nil_l (a : string) : String.append EmptyString a = a.
Proof. reflexivity. Qed.

Lemma string_app_cons (x : Ascii.ascii) (a b : string) :
  String.append (String x a) b = String x (String.append a b).
Proof. reflexivity. Qed.

Lemma string_app_assoc (a b c : string) :
  String.append (String.append a b) c = String.append a (String.append b c).
Proof. induction a as [|x a IH]; [done|]. rewrite !string_app_cons. simpl. congruence. Qed.

Lemma string_app_nil_r (a : string) : String.append a EmptyString = a.
Proof. induction a as [|x a IH]; [done|]. rewrite !string_app_cons. simpl. congruence. Qed.

Lemma string_length_app (a b : string) :
  String.length (String.append a b) = String.length a + String.length b.
Proof. induction a as [|x a IH]; [done|]. rewrite !string_app_cons. simpl. congruence. Qed.

#[export] Hint Rewrite string_app_nil_l string_app_cons string_app_assoc string_app_nil_r string_length_app : pyb_rw.

(** ** Generic list lemmas *)

(** Two filters agree on a list when their predicates agree on its
    elements. *)
Lemma filter_ext_in {A} (P1 P2 : A -> Prop) `{!forall x, Decision (P1 x), !forall x, Decision (P2 x)}
    (l : list A) :
  (forall x, x ∈ l -> P1 x <-> P2 x) -> filter P1 l = filter P2 l.
Proof.
  induction l as [|x l IH]; intros Hext; [done|]. rewrite !filter_cons.
  rewrite IH by (intros y Hy; apply Hext; by right).
  pose proof (Hext x ltac:(by left)) as Hx.
  destruct (decide (P1 x)), (decide (P2 x)); naive_solver.
Qed.

#[export] Hint Rewrite @bind_Ok @bind_Err @mapM_res_total : pyb_rw.

(** [res_inv] takes apart a hypothesis [x ← c; k = Ok v] into the
    successful run of [c] and of [k]. *)
Ltac res_inv :=
  repeat match goal with
  | H : (_ ← _; _) = Ok _ |- _ =>
      apply bind_eq_Ok in H; destruct H as (? & ? & ?)
  | H : mret _ = _ |- _ => cbv [mret res_ret] in H
  | H : Ok _ = Ok _ |- _ => injection H as H
  | H : Err _ = Ok _ |- _ => discriminate H
  | H : Ok _ = Err _ |- _ => discriminate H
  end.
