(* ===== verification/PyValue.v ===== *)
(** * The Python object model used by [src/modal.py] and [src/views.py]

    Values are the JSON-like Python objects the builder reads and
    produces; dicts are insertion-ordered association lists, as in
    CPython 3.7+, with [{**a, **b}] written out as the sequence of
    assignments it performs.  The exceptions are the ones the code can
    raise: [KeyError] (missing key), [TypeError] (wrong type or wrong
    call), [IndexError] (index of an empty sequence). *)

From Stdlib Require Import ZArith.
From stdpp Require Import base list strings gmap fin_maps.
From S2P Require Import Prelude.

Open Scope string_scope.

(** ** Values *)

Unset Elimination Schemes.
Inductive value : Type :=
| VNone
| VBool (b : bool)
| VInt (z : Z)
| VStr (s : string)
| VList (l : list value)
| VDict (d : list (string * value)).
Set Elimination Schemes.

(** A dict: insertion-ordered (key, value) pairs. *)
Definition dict : Type := list (string * value).

(** Induction through the lists and dicts a value contains. *)
Definition value_ind (P : value -> Prop)
    (fnone : P VNone) (fbool : forall b, P (VBool b)) (fint : forall z, P (VInt z))
    (fstr : forall s, P (VStr s))
    (flist : forall l, Forall P l -> P (VList l))
    (fdict : forall d : dict, Forall (fun kv => P kv.2) d -> P (VDict d)) :
    forall v, P v :=
  fix F v :=
    match v with
    | VNone => fnone
    | VBool b => fbool b
    | VInt z => fint z
    | VStr s => fstr s
    | VList l => flist l
        ((fix G l : Forall P l :=
            match l with [] => Forall_nil_2 _ | x :: l' => Forall_cons_2 _ _ _ (F x) (G l') end) l)
    | VDict d => fdict d
        ((fix G d : Forall (fun kv => P kv.2) d :=
            match d with
            | [] => Forall_nil_2 _
            | kv :: d' => Forall_cons_2 (fun kv => P kv.2) _ _ (F kv.2) (G d')
            end) d)
    end.

Inductive exn : Type :=
| KeyError (k : value)
| TypeError
| IndexError.

Abbreviation pyres := (res exn).

(** ** Dicts *)

Definition dict_keys (d : dict) : list string := map fst d.

(** [d[k]] on a present key, [None] when absent. *)
Fixpoint dict_lookup (k : string) (d : dict) : option value :=
  match d with
  | [] => None
  | (k', v) :: d' => if decide (k = k') then Some v else dict_lookup k d'
  end.

(** [d[k] = v]: an existing key keeps its position, a new key goes last. *)
Fixpoint dict_set (k : string) (v : value) (d : dict) : dict :=
  match d with
  | [] => [(k, v)]
  | (k', v') :: d' => if decide (k = k') then (k, v) :: d' else (k', v') :: dict_set k v d'
  end.

(** [{**a, **b}]: a copy of [a], then every item of [b] assigned in order. *)
Definition dict_merge (a b : dict) : dict :=
  fold_left (fun acc kv => dict_set kv.1 kv.2 acc) b a.

(** ** Python operations on values *)

(** [bool(v)]. *)
Definition truthy (v : value) : bool :=
  match v with
  | VNone => false
  | VBool b => b
  | VInt z => negb (Z.eqb z 0)
  | VStr s => negb (String.eqb s "")
  | VList l => match l with [] => false | _ => true end
  | VDict d => match d with [] => false | _ => true end
  end.

(** [x[k]] for a string key [k]. *)
Definition getitem (x : value) (k : string) : pyres value :=
  match x with
  | VDict d => match dict_lookup k d with Some v => Ok v | None => Err (KeyError (VStr k)) end
  | _ => Err TypeError
  end.

(** [kwargs[k]] inside a function declared with [**kwargs]. *)
Definition kw (kwargs : dict) (k : string) : pyres value := getitem (VDict kwargs) k.

(** The test [if kwargs.get(k):] together with the [kwargs[k]] read
    in its body: the value when it is present and truthy. *)
Definition get_truthy (kwargs : dict) (k : string) : option value :=
  match dict_lookup k kwargs with
  | Some v => if truthy v then Some v else None
  | None => None
  end.

Definition char_str (c : Ascii.ascii) : value := VStr (String c EmptyString).

(** [x[0]]: a dict has no key [0] (its keys are strings); scalars are
    not subscriptable. *)
Definition py_index0 (x : value) : pyres value :=
  match x with
  | VList (y :: _) => Ok y
  | VStr (String c _) => Ok (char_str c)
  | VList [] | VStr EmptyString => Err IndexError
  | VDict _ => Err (KeyError (VInt 0))
  | _ => Err TypeError
  end.

(** [for item in x]: the elements of a list, the characters of a str,
    the keys of a dict. *)
Definition py_iter (x : value) : pyres (list value) :=
  match x with
  | VList l => Ok l
  | VStr s => Ok (map char_str (String.list_ascii_of_string s))
  | VDict d => Ok (map (fun kv => VStr kv.1) d)
  | _ => Err TypeError
  end.

(** [isinstance(x, str)]. *)
Definition is_str (x : value) : bool := match x with VStr _ => true | _ => false end.

(** [x == s] for a str literal [s]. *)
Definition eq_str (x : value) (s : string) : bool :=
  match x with VStr t => String.eqb t s | _ => false end.

(** Structural equality of values, with the lists and dicts they hold
    compared element by element. *)
Fixpoint value_eqb (x y : value) : bool :=
  match x, y with
  | VNone, VNone => true
  | VBool a, VBool b => Bool.eqb a b
  | VInt a, VInt b => Z.eqb a b
  | VStr a, VStr b => String.eqb a b
  | VList l, VList m =>
      (fix go l m := match l, m with
                     | [], [] => true
                     | a :: l', b :: m' => value_eqb a b && go l' m'
                     | _, _ => false
                     end) l m
  | VDict d, VDict e =>
      (fix go d e := match d, e with
                     | [], [] => true
                     | (k, a) :: d', (k', b) :: e' => String.eqb k k' && value_eqb a b && go d' e'
                     | _, _ => false
                     end) d e
  | _, _ => false
  end.

(** ** The well-formedness invariant of JSON-like values *)

(** Every dict, at any depth, has pairwise distinct keys. *)
Fixpoint wf_value (v : value) : bool :=
  match v with
  | VList l => forallb wf_value l
  | VDict d => bool_decide (NoDup (map fst d)) && forallb (fun kv => wf_value kv.2) d
  | _ => true
  end.

Definition wf_dict (d : dict) : Prop := wf_value (VDict d) = true.

(** ** The abstract specification of dicts: stdpp's finite maps *)

Definition to_map (d : dict) : gmap string value := list_to_map d.

(** Two dicts are equal for Python's [==] at the top level when they
    map the same keys to the same values, whatever their order. *)
Definition dict_equiv (a b : dict) : Prop := forall k, dict_lookup k a = dict_lookup k b.

(** The first of the keys [ks], in the order given, that [kwargs]
    lacks: the key of the [KeyError] raised by code that reads them
    in that order. *)
Fixpoint first_missing (kwargs : dict) (ks : list string) : option string :=
  match ks with
  | [] => None
  | k :: ks' =>
      match dict_lookup k kwargs with
      | None => Some k
      | Some _ => first_missing kwargs ks'
      end
  end.

(** [kwargs.get(k)]: [None] for a missing key. *)
Definition py_get (kwargs : dict) (k : string) : value :=
  match dict_lookup k kwargs with Some v => v | None => VNone end.

(** [{**d1, **d2, ...}]: a fresh dict that receives the items of each
    operand in turn. *)
Definition dict_unpack (ds : list dict) : dict := fold_left dict_merge ds [].

(** ** Lemmas on dicts *)

Section DictLemmas.
  Implicit Types (k : string) (v : value) (d a b : dict).

Lemma dict_lookup_None k d : dict_lookup k d = None <-> k ∉ dict_keys d.
  Proof.
    induction d as [|[k' v'] d IH]; simpl; [set_solver|].
    case_decide; subst; [set_solver|]. rewrite IH. set_solver.
  Qed.

Lemma dict_lookup_Some_in k d v : dict_lookup k d = Some v -> k ∈ dict_keys d.
  Proof.
    intros H. destruct (decide (k ∈ dict_keys d)) as [|Hn]; [done|].
    apply dict_lookup_None in Hn. congruence.
  Qed.

Lemma dict_lookup_app k a b :
    dict_lookup k (a ++ b)%list = match dict_lookup k a with Some v => Some v | None => dict_lookup k b end.
  Proof. induction a as [|[k' v'] a IH]; simpl; [done|]. by case_decide. Qed.

Lemma dict_lookup_set k v k' d :
    dict_lookup k' (dict_set k v d) = if decide (k' = k) then Some v else dict_lookup k' d.
  Proof.
    induction d as [|[k0 v0] d IH]; simpl.
    - by repeat case_decide.
    - repeat (case_decide; simplify_eq/=); done.
  Qed.

Lemma dict_set_notin k v d : k ∉ dict_keys d -> dict_set k v d = (d ++ [(k, v)])%list.
  Proof.
    induction d as [|[k0 v0] d IH]; simpl; [done|].
    intros Hn. rewrite decide_False by set_solver. f_equal. apply IH. set_solver.
  Qed.

Lemma dict_keys_set_in k v d : k ∈ dict_keys d -> dict_keys (dict_set k v d) = dict_keys d.
  Proof.
    induction d as [|[k0 v0] d IH]; simpl; [set_solver|].
    intros Hin. case_decide; simpl; subst; [done|]. f_equal. apply IH. set_solver.
  Qed.

Lemma dict_set_nodup k v d : NoDup (dict_keys d) -> NoDup (dict_keys (dict_set k v d)).
  Proof.
    intros Hnd. destruct (decide (k ∈ dict_keys d)) as [Hin|Hn].
    - by rewrite dict_keys_set_in.
    - rewrite dict_set_notin by done. unfold dict_keys. rewrite map_app. simpl.
      apply NoDup_app. split_and!; [done | set_solver | apply NoDup_singleton].
  Qed.

Lemma dict_merge_cons a k v b :
    dict_merge a ((k, v) :: b) = dict_merge (dict_set k v a) b.
  Proof. reflexivity. Qed.

Lemma dict_merge_nil a : dict_merge a [] = a.
  Proof. reflexivity. Qed.

Lemma dict_lookup_merge k a b :
    NoDup (dict_keys b) ->
    dict_lookup k (dict_merge a b) =
      match dict_lookup k b with Some v => Some v | None => dict_lookup k a end.
  Proof.
    revert a; induction b as [|[k0 v0] b IH]; intros a Hnd; [done|].
    rewrite dict_merge_cons. inversion Hnd as [|? ? Hk0 Hnd']; subst.
    rewrite IH by done. simpl. rewrite dict_lookup_set.
    case_decide; subst; [|done].
    by rewrite (proj2 (dict_lookup_None _ _) Hk0).
  Qed.

Lemma dict_merge_fresh a b :
    NoDup (dict_keys b) -> Forall (fun kv => kv.1 ∉ dict_keys a) b ->
    dict_merge a b = (a ++ b)%list.
  Proof.
    revert a; induction b as [|[k v] b IH]; intros a Hnd Hfr.
    - by rewrite dict_merge_nil, app_nil_r.
    - inversion Hnd as [|? ? Hk Hnd']; inversion Hfr as [|? ? Hka Hfr']; subst.
      rewrite dict_merge_cons, dict_set_notin by done.
      rewrite IH; [by rewrite <- app_assoc | done |].
      apply Forall_forall. intros [k' v'] Hin. simpl.
      rewrite Forall_forall in Hfr'. specialize (Hfr' _ Hin). simpl in Hfr'.
      assert (k' ≠ k).
      { intros ->. apply Hk. apply list_elem_of_In, in_map_iff. exists (k, v'); split; [done|].
        by apply list_elem_of_In. }
      unfold dict_keys in *. rewrite map_app. set_solver.
  Qed.

Lemma dict_merge_nodup a b : NoDup (dict_keys a) -> NoDup (dict_keys (dict_merge a b)).
  Proof.
    revert a; induction b as [|[k v] b IH]; intros a Hnd; [done|].
    rewrite dict_merge_cons. apply IH. by apply dict_set_nodup.
  Qed.
End DictLemmas.

(** ** Refinement: ordered dicts implement stdpp's finite maps *)

Section Refinement.
  Implicit Types (k : string) (v : value) (d a b : dict).

Lemma to_map_lookup d k : to_map d !! k = dict_lookup k d.
  Proof.
    induction d as [|[k' v'] d IH]; [done|].
    unfold to_map in *. rewrite list_to_map_cons, lookup_insert. simpl.
    by repeat case_decide; simplify_eq.
  Qed.

Lemma to_map_set k v d : to_map (dict_set k v d) = <[k:=v]> (to_map d).
  Proof.
    apply map_eq. intros k'. rewrite to_map_lookup, dict_lookup_set, lookup_insert, to_map_lookup.
    by repeat case_decide; simplify_eq.
  Qed.

  (** [{**a, **b}] is the union of the two maps biased towards [b]. *)
Lemma to_map_merge a b : NoDup (dict_keys b) -> to_map (dict_merge a b) = to_map b ∪ to_map a.
  Proof.
    intros Hnd. apply map_eq. intros k.
    rewrite lookup_union, !to_map_lookup, dict_lookup_merge by done.
    by destruct (dict_lookup k b), (dict_lookup k a).
  Qed.
  (** The order of the keys of [{**a, **b}]: those of [a] in place,
      then the new keys of [b] in [b]'s order. *)
Lemma dict_keys_merge a b :
    NoDup (dict_keys b) ->
    dict_keys (dict_merge a b) = (dict_keys a ++ filter (fun k => k ∉ dict_keys a) (dict_keys b))%list.
  Proof.
    revert a. induction b as [|[k v] b IH]; intros a Hnd; [simpl; by rewrite app_nil_r|].
    change (dict_keys ((k, v) :: b)) with (k :: dict_keys b) in *.
    apply NoDup_cons in Hnd as [Hk Hnd]. rewrite dict_merge_cons, IH, filter_cons by done.
    destruct (decide (k ∈ dict_keys a)) as [Hin|Hin].
    - rewrite dict_keys_set_in by done. rewrite decide_False by naive_solver. done.
    - rewrite dict_set_notin, decide_True by done.
      assert (Hka : dict_keys (a ++ [(k, v)])%list = (dict_keys a ++ [k])%list)
        by (unfold dict_keys; by rewrite map_app).
      rewrite Hka, <- app_assoc. simpl. do 2 f_equal. apply filter_ext_in. intros k' Hk'.
      rewrite elem_of_app, list_elem_of_singleton. naive_solver.
  Qed.
End Refinement.

(** ** Python's order-insensitive dict equality as a setoid *)

#[export] Instance dict_equiv_equivalence : Equivalence dict_equiv.
Proof.
  split; unfold dict_equiv; [done | by intros ?? H k | by intros ??? H1 H2 k; rewrite H1].
Qed.

Lemma dict_equiv_to_map a b : dict_equiv a b <-> to_map a = to_map b.
Proof.
  split.
  - intros H. apply map_eq. intros k. by rewrite !to_map_lookup.
  - intros H k. by rewrite <- !to_map_lookup, H.
Qed.

#[export] Instance dict_lookup_proper k : Proper (dict_equiv ==> eq) (dict_lookup k).
Proof. by intros a b H. Qed.

#[export] Instance to_map_proper : Proper (dict_equiv ==> eq) to_map.
Proof. intros a b H. by apply dict_equiv_to_map. Qed.

#[export] Instance dict_set_proper k v : Proper (dict_equiv ==> dict_equiv) (dict_set k v).
Proof. intros a b H k'. by rewrite !dict_lookup_set, H. Qed.

#[export] Instance dict_merge_proper : Proper (dict_equiv ==> eq ==> dict_equiv) dict_merge.
Proof.
  intros a a' Ha b ? <-. revert a a' Ha.
  induction b as [|[k v] b IH]; intros a a' Ha; [done|].
  rewrite !dict_merge_cons. apply IH. by rewrite Ha.
Qed.

(** ** The well-formedness invariant *)

Section WellFormed.
  Implicit Types (k : string) (v : value) (d a b : dict).

Lemma wf_dict_iff d :
    wf_dict d <-> NoDup (dict_keys d) /\ Forall (fun kv => wf_value kv.2 = true) d.
  Proof.
    unfold wf_dict. simpl. by rewrite andb_true_iff, bool_decide_eq_true, forallb_forall,
      List.Forall_forall.
  Qed.

Lemma wf_dict_set k v d : wf_dict d -> wf_value v = true -> wf_dict (dict_set k v d).
  Proof.
    rewrite !wf_dict_iff. intros [Hnd Hv] Hwf. split; [by apply dict_set_nodup|].
    induction d as [|[k' v'] d IH]; simpl; [by constructor|].
    inversion Hv; inversion Hnd; subst. case_decide; constructor; auto.
  Qed.

Lemma wf_dict_merge a b :
    wf_dict a -> Forall (fun kv => wf_value kv.2 = true) b -> wf_dict (dict_merge a b).
  Proof.
    revert a; induction b as [|[k v] b IH]; intros a Ha Hb; [done|].
    inversion Hb; subst. rewrite dict_merge_cons. apply IH; [|done]. by apply wf_dict_set.
  Qed.
End WellFormed.

(** ** Reading arguments *)

Section Kwargs.
  Implicit Types (k : string) (v : value) (kwargs : dict).

Lemma kw_Ok kwargs k v : kw kwargs k = Ok v <-> dict_lookup k kwargs = Some v.
  Proof. unfold kw, getitem. destruct (dict_lookup k kwargs); split; congruence. Qed.

Lemma kw_lookup kwargs k v : dict_lookup k kwargs = Some v -> kw kwargs k = Ok v.
  Proof. apply kw_Ok. Qed.

Lemma kw_missing kwargs k : dict_lookup k kwargs = None -> kw kwargs k = Err (KeyError (VStr k)).
  Proof. unfold kw, getitem. by intros ->. Qed.

Lemma get_truthy_Some kwargs k v :
    get_truthy kwargs k = Some v <-> dict_lookup k kwargs = Some v /\ truthy v = true.
  Proof.
    unfold get_truthy. destruct (dict_lookup k kwargs) as [v'|]; [|naive_solver].
    destruct (truthy v') eqn:E; split.
    - by intros [= <-].
    - by intros [[= <-] _].
    - discriminate.
    - intros [[= <-] ?]. congruence.
  Qed.

Lemma get_truthy_None kwargs k :
    get_truthy kwargs k = None <-> forall v, dict_lookup k kwargs = Some v -> truthy v = false.
  Proof.
    unfold get_truthy. destruct (dict_lookup k kwargs) as [v'|]; [|naive_solver].
    destruct (truthy v') eqn:E; split.
    - discriminate.
    - intros H. specialize (H v' eq_refl). congruence.
    - by intros _ ? [= <-].
    - done.
  Qed.
End Kwargs.

Lemma wf_dict_nil : wf_dict [].
Proof. reflexivity. Qed.

Lemma wf_dict_cons k v d :
  wf_dict ((k, v) :: d) <-> (k ∉ dict_keys d) /\ wf_value v = true /\ wf_dict d.
Proof.
  rewrite !wf_dict_iff. unfold dict_keys. simpl. rewrite NoDup_cons, Forall_cons. naive_solver.
Qed.

Lemma wf_value_dict d : wf_value (VDict d) = true <-> wf_dict d.
Proof. reflexivity. Qed.

Lemma wf_value_list l : Forall (fun y => wf_value y = true) l -> wf_value (VList l) = true.
Proof. intros H. simpl. apply forallb_forall. by apply List.Forall_forall. Qed.

Lemma dict_lookup_wf d k v :
  Forall (fun kv => wf_value kv.2 = true) d -> dict_lookup k d = Some v -> wf_value v = true.
Proof.
  induction 1 as [|[k' v'] d Hv _ IH]; simpl; [done|]. case_decide; [by intros [= <-]|done].
Qed.

#[export] Hint Resolve wf_dict_nil wf_dict_set wf_value_list : pyb.

(** [wf_solve] proves that a dict literal of the code is well-formed
    from the well-formedness of the values it holds: the distinctness
    of the literal keys is decided by computation. *)
Ltac wf_solve :=
  repeat first
    [ progress rewrite ?wf_value_dict
    | apply wf_dict_nil
    | apply wf_dict_cons; split_and!
    | apply wf_value_list; assumption
    | match goal with |- _ ∉ _ => apply (bool_decide_unpack _); vm_compute; exact I end
    | reflexivity
    | assumption ].



Lemma get_truthy_py_get kwargs k :
  truthy (py_get kwargs k) = bool_decide (is_Some (get_truthy kwargs k)).
Proof.
  unfold py_get, get_truthy. destruct (dict_lookup k kwargs) as [v|]; [|done].
  by destruct (truthy v).
Qed.

(** ** Decidable equality *)

Lemma value_eqb_eq (x y : value) : value_eqb x y = true <-> x = y.
Proof.
  revert y. induction x as [| | | | l Hl | d Hd] using value_ind; intros [| | | | m | e]; simpl;
    try (split; [discriminate | intros [=]]).
  - done.
  - rewrite Bool.eqb_true_iff. naive_solver.
  - rewrite Z.eqb_eq. naive_solver.
  - rewrite String.eqb_eq. naive_solver.
  - revert m. induction Hl as [|x l Hx _ IH]; intros [|y m]; simpl;
      try (split; [discriminate | intros [=]]); [done|].
    rewrite andb_true_iff, Hx, IH. naive_solver.
  - revert e. induction Hd as [|[k x] d Hx _ IH]; intros [|[k' y] e]; simpl;
      try (split; [discriminate | intros [=]]); [done|].
    rewrite !andb_true_iff, String.eqb_eq, Hx, IH. naive_solver.
Qed.

#[export] Instance value_eq_dec : EqDecision value.
Proof.
  intros x y. destruct (value_eqb x y) eqn:H; [left | right].
  - by apply value_eqb_eq.
  - intros ->. assert (value_eqb y y = true) by by apply value_eqb_eq. congruence.
Defined.

(** Python's [==] on dicts is decidable: compare the maps. *)
#[export] Instance dict_equiv_dec : RelDecision dict_equiv.
Proof.
  intros a b. destruct (decide (to_map a = to_map b)) as [H|H]; [left | right];
    by rewrite dict_equiv_to_map.
Defined.
