(* ===== verification/PyHeap.v ===== *)
(** * Python objects with identity

    The rest of the development models values as immutable trees,
    which is exact for code that never mutates what it builds.  This
    file adds what that view leaves out: lists and dicts are objects in
    a heap, a variable or a dict entry holds a reference to one, and a
    dict display [{...}] allocates a new dict whose entries are the
    references it was given, not copies.  The caller of the builder can
    mutate an object it passed in, and every dict holding that
    reference sees the change.

    [hval] is what a Python variable holds: a scalar or str (immutable)
    or a reference [HRef l]; [hobj] is a heap object, a list or a dict
    with its insertion-ordered entries; the heap is the list of the
    objects allocated so far, a reference being an index into it.
    [freeze] reads a heap value deeply into a [value], with fuel for
    the depth of references it may follow (a heap may hold cycles,
    whose deep read does not end). *)

From Stdlib Require Import ZArith.
From stdpp Require Import base list strings.
From S2P Require Import Prelude PyValue.

Open Scope string_scope.

(** ** Objects and the heap *)

Inductive hval : Type :=
| HNone
| HBool (b : bool)
| HInt (z : Z)
| HStr (s : string)
| HRef (l : nat).

Definition hdict : Type := list (string * hval).

Inductive hobj : Type :=
| OList (xs : list hval)
| ODict (d : hdict).

Definition heap : Type := list hobj.

(** A new object: it goes at the end of the heap. *)
Definition alloc (h : heap) (o : hobj) : heap * hval := ((h ++ [o])%list, HRef (length h)).

(** ** Dicts of references *)

Fixpoint hlookup (k : string) (d : hdict) : option hval :=
  match d with
  | [] => None
  | (k', v) :: d' => if decide (k = k') then Some v else hlookup k d'
  end.

(** [d[k] = v] on the entries of a dict object. *)
Fixpoint hset (k : string) (v : hval) (d : hdict) : hdict :=
  match d with
  | [] => [(k, v)]
  | (k', v') :: d' => if decide (k = k') then (k, v) :: d' else (k', v') :: hset k v d'
  end.

Definition hmerge (a b : hdict) : hdict := fold_left (fun acc kv => hset kv.1 kv.2 acc) b a.

(** An item of a dict display: [**x] or [k: v]. *)
Inductive ditem : Type :=
| DUnpack (x : hval)
| DPair (k : string) (v : hval).

(** The entries of a dict display, items processed left to right;
    [**x] of anything but a dict raises [TypeError]. *)
Fixpoint display_entries (h : heap) (acc : hdict) (items : list ditem) : pyres hdict :=
  match items with
  | [] => Ok acc
  | DPair k v :: rest => display_entries h (hset k v acc) rest
  | DUnpack (HRef l) :: rest =>
      match h !! l with
      | Some (ODict d) => display_entries h (hmerge acc d) rest
      | _ => Err TypeError
      end
  | DUnpack _ :: _ => Err TypeError
  end.

(** [{items}]: a new dict object, allocated once its items have been
    read.  CPython's compiled code allocates the outer dict of a
    display holding [**] first and fills it in place; the difference
    shows in the numbering of locations, not in the contents of any
    object a result can reach. *)
Definition display (h : heap) (items : list ditem) : pyres (heap * hval) :=
  d ← display_entries h [] items; mret (alloc h (ODict d)).

(** The plain dict display [{k1: v1, ...}] with distinct keys. *)
Definition dict_lit (h : heap) (d : hdict) : heap * hval := alloc h (ODict d).

(** ** Reading heap values *)

(** [bool(v)]: an object is truthy when it is not empty. *)
Definition htruthy (h : heap) (v : hval) : bool :=
  match v with
  | HNone => false
  | HBool b => b
  | HInt z => negb (Z.eqb z 0)
  | HStr s => negb (String.eqb s "")
  | HRef l =>
      match h !! l with
      | Some (OList (_ :: _)) | Some (ODict (_ :: _)) => true
      | _ => false
      end
  end.

(** [kwargs[k]] and [kwargs.get(k)]: the [**kwargs] dict is fresh at
    each call, its values are the caller's references. *)
Definition hkw (kwargs : hdict) (k : string) : pyres hval :=
  match hlookup k kwargs with Some v => Ok v | None => Err (KeyError (VStr k)) end.

Definition hget (kwargs : hdict) (k : string) : hval := default HNone (hlookup k kwargs).

(** The deep value of [v], following at most [n] references in depth. *)
Fixpoint freeze (n : nat) (h : heap) (v : hval) : option value :=
  match v with
  | HNone => Some VNone
  | HBool b => Some (VBool b)
  | HInt z => Some (VInt z)
  | HStr s => Some (VStr s)
  | HRef l =>
      match n with
      | 0 => None
      | S n' =>
          match h !! l with
          | Some (OList xs) => VList <$> mapM (freeze n' h) xs
          | Some (ODict d) => VDict <$> mapM (fun kv => pair kv.1 <$> freeze n' h kv.2) d
          | None => None
          end
      end
  end.

Definition freeze_dict (n : nat) (h : heap) (d : hdict) : option dict :=
  mapM (fun kv => pair kv.1 <$> freeze n h kv.2) d.

(** The caller's [lst.append(x)] on the list object [l]. *)
Definition list_append (h : heap) (l : nat) (x : hval) : option heap :=
  match h !! l with
  | Some (OList xs) => Some (<[l := OList (xs ++ [x])%list]> h)
  | _ => None
  end.

(** ** Deep reads *)

Section Freeze.

(** A deep read that succeeds is kept by a stronger reader. *)
Lemma mapM_weaken {A B} (f g : A -> option B) (xs : list A) (ys : list B) :
  (forall x y, x ∈ xs -> f x = Some y -> g x = Some y) -> mapM f xs = Some ys -> mapM g xs = Some ys.
Proof.
  intros Hfg. rewrite !mapM_Some. intros Hf. induction Hf; constructor; auto.
  - apply Hfg; [by left | done].
  - apply IHHf. intros x' y' Hx. apply Hfg. by right.
Qed.

(** Allocation never changes what an existing value reads as. *)
Lemma freeze_app (n : nat) (h h2 : heap) (v : hval) (w : value) :
  freeze n h v = Some w -> freeze n (h ++ h2)%list v = Some w.
Proof.
  revert v w. induction n as [|n IH]; intros [] w Hv; simpl in *; simplify_eq/=; try done.
  destruct (h !! l) as [[xs|d]|] eqn:Hl; [| |done]; rewrite (lookup_app_l_Some _ _ _ _ Hl);
    simplify_option_eq.
  - erewrite mapM_weaken; [done| |done]. intros x y _ Hx. by apply IH.
  - erewrite mapM_weaken; [done| |done]. intros [k x] y _ Hx.
    apply fmap_Some in Hx as (w' & Hw' & ->). by rewrite (IH _ _ Hw').
Qed.

Lemma freeze_mono (n m : nat) (h : heap) (v : hval) (w : value) :
  n <= m -> freeze n h v = Some w -> freeze m h v = Some w.
Proof.
  revert m v w. induction n as [|n IH]; intros m v w Hnm Hv; destruct m as [|m]; try lia;
    destruct v as [| | | |l]; simpl in *; simplify_eq/=; try done.
  destruct (h !! l) as [[xs|d]|]; [| |done]; simplify_option_eq.
  - erewrite mapM_weaken; [done| |done]. intros x y _ Hx. apply IH; [lia|done].
  - erewrite mapM_weaken; [done| |done]. intros [k x] y _ Hx.
    apply fmap_Some in Hx as (w' & Hw' & ->). rewrite (IH m _ _ ltac:(lia) Hw'). done.
Qed.

Lemma freeze_dict_app n h h2 d d' :
  freeze_dict n h d = Some d' -> freeze_dict n (h ++ h2)%list d = Some d'.
Proof.
  apply mapM_weaken. intros [k x] y _ Hx.
  apply fmap_Some in Hx as (w' & Hw' & ->). by rewrite (freeze_app _ _ _ _ _ Hw').
Qed.

Lemma freeze_dict_mono n m h d d' :
  n <= m -> freeze_dict n h d = Some d' -> freeze_dict m h d = Some d'.
Proof.
  intros Hnm. apply mapM_weaken. intros [k x] y _ Hx.
  apply fmap_Some in Hx as (w' & Hw' & ->). by rewrite (freeze_mono _ _ _ _ _ Hnm Hw').
Qed.

Lemma freeze_dict_prefix n h h' d d' :
  h `prefix_of` h' -> freeze_dict n h d = Some d' -> freeze_dict n h' d = Some d'.
Proof. intros [h2 ->]. apply freeze_dict_app. Qed.

Lemma freeze_dict_cons n h k v d w d' :
  freeze n h v = Some w -> freeze_dict n h d = Some d' ->
  freeze_dict n h ((k, v) :: d) = Some ((k, w) :: d').
Proof. unfold freeze_dict. simpl. intros -> ->. done. Qed.

(** What a key of a dict of references reads as. *)
Lemma freeze_dict_lookup n h d d' k :
  freeze_dict n h d = Some d' ->
  match hlookup k d with
  | Some v => exists w, freeze n h v = Some w /\ dict_lookup k d' = Some w
  | None => dict_lookup k d' = None
  end.
Proof.
  unfold freeze_dict. intros Hd. apply mapM_Some in Hd.
  induction Hd as [|[k' v] [k'' w] d d' Hv _ IH]; [done|].
  apply fmap_Some in Hv as (w' & Hw' & [= -> ->]). cbn [hlookup dict_lookup].
  destruct (decide (k = k')); eauto.
Qed.

(** Truthiness does not depend on the reading depth. *)
Lemma htruthy_freeze n h v w : freeze n h v = Some w -> htruthy h v = truthy w.
Proof.
  intros Hv. destruct n as [|n]; destruct v as [| | | |l]; simpl in *; simplify_eq/=; try done.
  destruct (h !! l) as [[[|x xs]|[|kv d]]|]; simplify_option_eq; try done;
    match goal with H : mapM _ (_ :: _) = Some _ |- _ =>
      apply mapM_Some in H; inversion H; subst end; done.
Qed.

Lemma freeze_dict_set n h k v w d d' :
  freeze n h v = Some w -> freeze_dict n h d = Some d' ->
  freeze_dict n h (hset k v d) = Some (dict_set k w d').
Proof.
  intros Hv Hd. unfold freeze_dict in *. apply mapM_Some in Hd. apply mapM_Some.
  induction Hd as [|[k' x] y d d' Hx Hd IH]; cbn [hset dict_set].
  - repeat constructor. simpl. by rewrite Hv.
  - apply fmap_Some in Hx as (w' & Hw' & ->). simpl in Hw' |- *.
    destruct (decide (k = k')); constructor; simpl; rewrite ?Hv, ?Hw'; auto.
Qed.

Lemma freeze_dict_merge n h a b a' b' :
  freeze_dict n h a = Some a' -> freeze_dict n h b = Some b' ->
  freeze_dict n h (hmerge a b) = Some (dict_merge a' b').
Proof.
  intros Ha Hb. revert a a' Ha. unfold freeze_dict in Hb. apply mapM_Some in Hb.
  induction Hb as [|[k x] y b b' Hx _ IH]; intros a a' Ha; [done|].
  apply fmap_Some in Hx as (w' & Hw' & ->). apply IH. by apply freeze_dict_set.
Qed.

End Freeze.

(** ** Allocation and keyword arguments *)

Lemma lookup_alloc (h : heap) (o : hobj) : (h ++ [o])%list !! length h = Some o.
Proof. by apply list_lookup_middle. Qed.

Lemma freeze_HStr n h s : freeze n h (HStr s) = Some (VStr s).
Proof. by destruct n. Qed.

Lemma freeze_HBool n h b : freeze n h (HBool b) = Some (VBool b).
Proof. by destruct n. Qed.

(** A dict object just allocated reads as its entries. *)
Lemma freeze_alloc_dict n h d d' :
  freeze_dict n h d = Some d' -> freeze (S n) (h ++ [ODict d])%list (HRef (length h)) = Some (VDict d').
Proof.
  intros Hd. simpl. rewrite lookup_alloc. apply (freeze_dict_app _ _ [ODict d]) in Hd.
  unfold freeze_dict in Hd. by rewrite Hd.
Qed.

Lemma freeze_prefix n h h' v w : h `prefix_of` h' -> freeze n h v = Some w -> freeze n h' v = Some w.
Proof. intros [h2 ->]. apply freeze_app. Qed.

(** [kwargs[k]] on references and on deep values. *)
Lemma hkw_freeze n h kwh kw k :
  freeze_dict n h kwh = Some kw ->
  (exists v w, hkw kwh k = Ok v /\ PyValue.kw kw k = Ok w /\ freeze n h v = Some w) \/
  (hkw kwh k = Err (KeyError (VStr k)) /\ PyValue.kw kw k = Err (KeyError (VStr k))).
Proof.
  intros Hd. pose proof (freeze_dict_lookup _ _ _ _ k Hd) as Hl. unfold hkw, PyValue.kw, getitem.
  destruct (hlookup k kwh) as [v|]; [destruct Hl as (w & Hw & ->); left; eauto | rewrite Hl; by right].
Qed.

(** [if kwargs.get(k):] on references and on deep values. *)
Lemma hget_truthy n h kwh kw k :
  freeze_dict n h kwh = Some kw -> htruthy h (hget kwh k) = truthy (py_get kw k).
Proof.
  intros Hd. pose proof (freeze_dict_lookup _ _ _ _ k Hd) as Hl. unfold hget, py_get.
  destruct (hlookup k kwh) as [v|]; simpl.
  - destruct Hl as (w & Hw & ->). by apply (htruthy_freeze n).
  - by rewrite Hl.
Qed.

(** The guard [if kwargs.get(k):] with the read [kwargs[k]] of its
    body, on references and on deep values. *)
Lemma hget_get_truthy n h kwh kw k :
  freeze_dict n h kwh = Some kw ->
  if htruthy h (hget kwh k) then
    exists u w, hkw kwh k = Ok u /\ get_truthy kw k = Some w /\ freeze n h u = Some w
  else get_truthy kw k = None.
Proof.
  intros Hd. pose proof (freeze_dict_lookup _ _ _ _ k Hd) as Hl. unfold hget, hkw, get_truthy.
  destruct (hlookup k kwh) as [v|]; simpl; [|by rewrite Hl].
  destruct Hl as (w & Hw & ->). rewrite (htruthy_freeze _ _ _ _ Hw).
  destruct (truthy w); eauto.
Qed.

(** From here on a deep read is taken apart by the lemmas above only. *)
Arguments freeze : simpl never.

(** Read a result built by allocations: peel the allocations made
    after an object, read the object just allocated entry by entry,
    and fall back on the reads known for the caller's values. *)
Ltac freeze_solve :=
  repeat match goal with
  | |- freeze_dict _ _ [] = Some _ => reflexivity
  | |- freeze_dict _ _ (_ :: _) = Some _ => eapply freeze_dict_cons
  | |- freeze _ _ (HStr _) = Some _ => apply freeze_HStr
  | |- freeze _ _ (HBool _) = Some _ => apply freeze_HBool
  | Hv : freeze ?k ?H0 ?v = Some _ |- freeze ?m ?H0 ?v = Some _ =>
      eapply (freeze_mono k m); [lia | exact Hv]
  | |- freeze (S _) (?H ++ [ODict _])%list (HRef (length ?H)) = Some _ => eapply freeze_alloc_dict
  | |- freeze _ (_ ++ _)%list _ = Some _ => apply freeze_app
  | Hp : ?H0 `prefix_of` ?H1 |- freeze _ ?H1 _ = Some _ => eapply (freeze_prefix _ H0 H1); [exact Hp|]
  end.
