(* ===== verification/PyRepr.v ===== *)
(** * Python's [repr] of the values the builder produces

    [print(x)] writes [str(x)] and a newline; for the dicts, lists and
    strs of the builder's payloads [str] is [repr].  This file writes
    out CPython's [repr] for [value]: [None], [True]/[False], decimal
    integers, strs quoted and escaped the way [unicode_repr] does it,
    lists as [[a, b]] and dicts as [{k: v, ...}] in insertion order.

    A Rocq [string] is read as a Python str whose code points are all
    below 256, one [ascii] per code point (its Latin-1 reading); strs
    with larger code points are outside the model.  On that range the
    escapes are exactly CPython's: the chosen quote and the backslash
    by a backslash; tab, newline and carriage return by their escapes;
    every other code point that [str.isprintable] rejects as [\xhh].
    Those are the C0 controls (below 32), DEL (127), the C1 controls
    (128-159), the no-break space (160, a separator) and the soft
    hyphen (173, a format character).  Every other code point is
    copied unchanged. *)

From Stdlib Require Import Ascii ZArith.
From stdpp Require Import base list strings pretty.
From S2P Require Import Prelude PyValue.

Open Scope string_scope.

(** ** Characters and strs *)

Definition dquote : ascii := ascii_of_nat 34.
Definition squote : ascii := ascii_of_nat 39.
Definition backslash : ascii := ascii_of_nat 92.

Definition str1 (c : ascii) : string := String c EmptyString.

(** A lowercase hexadecimal digit. *)
Definition hex_digit (n : nat) : ascii :=
  if decide (n < 10) then ascii_of_nat (48 + n) else ascii_of_nat (87 + n).

(** CPython's quote: the single quote, unless the str contains a
    single quote and no double quote. *)
Definition repr_quote (s : string) : ascii :=
  let cs := String.list_ascii_of_string s in
  if bool_decide (squote ∈ cs) && negb (bool_decide (dquote ∈ cs)) then dquote else squote.

(** One code point of a str inside quotes [q]: [unicode_repr]'s
    escapes for the code points below 256. *)
Definition repr_char (q c : ascii) : string :=
  let n := nat_of_ascii c in
  if bool_decide (c = q) || bool_decide (c = backslash) then String backslash (str1 c)
  else if decide (n = 9) then String backslash (str1 "t")
  else if decide (n = 10) then String backslash (str1 "n")
  else if decide (n = 13) then String backslash (str1 "r")
  else if bool_decide (n < 32) || bool_decide (127 <= n <= 160) || bool_decide (n = 173) then
    String backslash (String "x" (String (hex_digit (n / 16)) (str1 (hex_digit (n mod 16)))))
  else str1 c.

Fixpoint repr_chars (q : ascii) (s : string) : string :=
  match s with
  | EmptyString => EmptyString
  | String c s' => repr_char q c ++ repr_chars q s'
  end.

(** [repr(s)] for a str. *)
Definition repr_str (s : string) : string :=
  let q := repr_quote s in String q (repr_chars q s ++ str1 q).

(** The items joined with a comma and a space, as [str.join]. *)
Fixpoint join_comma (items : list string) : string :=
  match items with
  | [] => EmptyString
  | [x] => x
  | x :: rest => x ++ ", " ++ join_comma rest
  end.

(** [repr(v)] *)
Fixpoint py_repr (v : value) : string :=
  match v with
  | VNone => "None"
  | VBool true => "True"
  | VBool false => "False"
  | VInt z => pretty z
  | VStr s => repr_str s
  | VList l => "[" ++ join_comma (map py_repr l) ++ "]"
  | VDict d => "{" ++ join_comma (map (fun kv => repr_str kv.1 ++ ": " ++ py_repr kv.2) d) ++ "}"
  end.

(** [str(v)]: the same as [repr] except for a str, which is itself. *)
Definition py_str (v : value) : string :=
  match v with VStr s => s | _ => py_repr v end.
