(* ===== verification/TextObjects.v ===== *)
(** * Text objects and view fragments ([src/modal.py], lines 5-94)

    [plain_text_object] and [mrkdwn_object] build the two kinds of
    text object; [view], [submit], [close] and [blocks] build the
    top-level fragments of a view that the caller merges with
    [{**a, **b}]; [header] and [divider] are the two simplest blocks;
    [confirm] builds the confirmation dialog of a button.  The
    functions declared with [**kwargs] take the keyword dict and may
    raise [KeyError]; the ones with a positional parameter are total. *)

From stdpp Require Import base list strings.
From S2P Require Import Prelude PyValue.

Open Scope string_scope.

(** [plain_text_object(text)] *)
Definition plain_text_object (text : value) : dict :=
  [("type", VStr "plain_text"); ("text", text); ("emoji", VBool true)].

(** [mrkdwn_object(text)] *)
Definition mrkdwn_object (text : value) : dict :=
  [("type", VStr "mrkdwn"); ("text", text)].

(** [view( **kwargs)]: the dict display evaluates [kwargs['type']]
    before [kwargs['text']]. *)
Definition view (kwargs : dict) : pyres dict :=
  ty ← kw kwargs "type";
  text ← kw kwargs "text";
  mret [("type", ty); ("title", VDict (plain_text_object text))].

(** [submit(text)] *)
Definition submit (text : value) : dict := [("submit", VDict (plain_text_object text))].

(** [close(text)] *)
Definition close (text : value) : dict := [("close", VDict (plain_text_object text))].

(** [header(text)] *)
Definition header (text : value) : dict :=
  [("type", VStr "header"); ("text", VDict (plain_text_object text))].

(** [divider()] *)
Definition divider : dict := [("type", VStr "divider")].

(** [confirm( **kwargs)]: its text objects are written inline, without
    the [emoji] key that [plain_text_object] adds. *)
Definition confirm (kwargs : dict) : pyres dict :=
  title ← kw kwargs "confirm_title";
  text ← kw kwargs "confirm_text";
  approve ← kw kwargs "confirm_approve_text";
  deny ← kw kwargs "confirm_deny_text";
  mret [("title", VDict [("type", VStr "plain_text"); ("text", title)]);
        ("text", VDict [("type", VStr "mrkdwn"); ("text", text)]);
        ("confirm", VDict [("type", VStr "plain_text"); ("text", approve)]);
        ("deny", VDict [("type", VStr "plain_text"); ("text", deny)])].

(** [blocks(blocks_list)] *)
Definition blocks (blocks_list : value) : dict := [("blocks", blocks_list)].

(** ** Well-formedness *)

(** Text objects are well-formed whenever their text is. *)
Lemma wf_plain_text_object t : wf_value t = true -> wf_dict (plain_text_object t).
Proof. intros. unfold plain_text_object. wf_solve. Qed.

Lemma wf_mrkdwn_object t : wf_value t = true -> wf_dict (mrkdwn_object t).
Proof. intros. unfold mrkdwn_object. wf_solve. Qed.

#[export] Hint Resolve wf_plain_text_object wf_mrkdwn_object : pyb.

Lemma confirm_wf (kwargs : dict) (c : dict) :
  Forall (fun kv => wf_value kv.2 = true) kwargs -> confirm kwargs = Ok c -> wf_dict c.
Proof.
  intros Hkw H. unfold confirm in H. res_inv. subst.
  repeat match goal with Hk : kw _ _ = Ok _ |- _ =>
    apply kw_Ok, (dict_lookup_wf _ _ _ Hkw) in Hk end.
  wf_solve.
Qed.
