(* ===== verification/OptionItems.v ===== *)
(** * The option-list helper [option_items] ([src/modal.py], lines 185-193)

    [option_items(items)] turns the [options] argument of the select,
    checkbox, radio and overflow elements into a list of option
    objects.  It looks at [items[0]] only: when it is a [str], every
    item becomes [{'text': plain_text_object(item), 'value': item}];
    otherwise every item must be a mapping with [text], [description]
    and [value] keys.  Evaluation order: [items[0]] first (an
    [IndexError] on an empty list or str), then the iteration, then,
    per item, the three subscripts in display order. *)

From stdpp Require Import base list strings.
From S2P Require Import Prelude PyValue TextObjects.

Open Scope string_scope.

(** The option built from a str item. *)
Definition plain_option (item : value) : value :=
  VDict [("text", VDict (plain_text_object item)); ("value", item)].

(** The option built from a record item: [item['text']],
    [item['description']] and [item['value']], in that order. *)
Definition record_option (item : value) : pyres value :=
  text ← getitem item "text";
  description ← getitem item "description";
  value ← getitem item "value";
  mret (VDict [("text", VDict (mrkdwn_object text));
               ("description", VDict (mrkdwn_object description));
               ("value", value)]).

(** [option_items(items)] *)
Definition option_items (items : value) : pyres (list value) :=
  first ← py_index0 items;
  elems ← py_iter items;
  if is_str first then mret (map plain_option elems)
  else mapM record_option elems.

(** ** Lemmas *)

Lemma record_option_dict (d : dict) (o : value) :
  record_option (VDict d) = Ok o <->
  exists t x v, dict_lookup "text" d = Some t /\ dict_lookup "description" d = Some x /\
                dict_lookup "value" d = Some v /\
                o = VDict [("text", VDict (mrkdwn_object t));
                           ("description", VDict (mrkdwn_object x)); ("value", v)].
Proof.
  unfold record_option. split.
  - intros H. res_inv. subst. apply kw_Ok in H, H0, H1. eauto 10.
  - intros (t & x & v & Ht & Hx & Hv & ->). unfold getitem. by rewrite Ht, Hx, Hv.
Qed.

Lemma record_option_str (s : string) : record_option (VStr s) = Err TypeError.
Proof. reflexivity. Qed.

(** ** Well-formedness *)

Lemma py_iter_wf (x : value) (elems : list value) :
  wf_value x = true -> py_iter x = Ok elems -> Forall (fun y => wf_value y = true) elems.
Proof.
  destruct x as [| | | s | l | d]; simpl; intros Hx [= <-].
  - apply Forall_forall. intros y Hy. apply list_elem_of_fmap in Hy as (c & -> & _). done.
  - apply List.Forall_forall. by apply forallb_forall.
  - apply Forall_forall. intros y Hy. apply list_elem_of_fmap in Hy as (kv & -> & _). done.
Qed.

Lemma getitem_wf (x : value) (k : string) (v : value) :
  wf_value x = true -> getitem x k = Ok v -> wf_value v = true.
Proof.
  destruct x as [| | | | | d]; try discriminate. intros Hx Hk.
  apply kw_Ok in Hk. apply wf_dict_iff in Hx as [_ Hx].
  induction d as [|[k' v'] d IH]; simpl in *; [done|]. inversion Hx; subst.
  case_decide; simplify_eq; auto.
Qed.

Lemma option_items_wf (items : value) (k : list value) :
  wf_value items = true -> option_items items = Ok k -> Forall (fun o => wf_value o = true) k.
Proof.
  intros Hwf H. unfold option_items in H. res_inv.
  pose proof (py_iter_wf _ _ Hwf H0) as Helems.
  destruct (is_str _); res_inv; subst.
  - apply Forall_forall. intros o Ho. apply list_elem_of_fmap in Ho as (y & -> & Hy).
    rewrite Forall_forall in Helems. specialize (Helems y Hy). unfold plain_option. wf_solve.
  - apply mapM_res_Ok in H1. clear H H0. induction H1 as [|y o l k Hy _ IH]; [done|].
    inversion Helems; subst. constructor; [|auto].
    unfold record_option in Hy. res_inv. subst.
    repeat match goal with H : getitem y _ = Ok _ |- _ => apply getitem_wf in H; [|done] end.
    wf_solve.
Qed.
