(* ===== verification/Elements.v ===== *)
(** * Interactive elements ([src/modal.py], lines 196-371)

    One constructor per element kind.  Each reads its required keyword
    arguments with [kwargs[k]] in the order of the dict display (so the
    first missing one raises [KeyError]), then adds every optional key
    with [schema = {**schema, **{key: ...}}] only when
    [kwargs.get(k)] is truthy.  [add_if] is that guarded merge. *)

From stdpp Require Import base list strings.
From S2P Require Import Prelude PyValue TextObjects OptionItems.

Open Scope string_scope.

(** [if kwargs.get(k): schema = {**schema, **{out: f(kwargs[k])}}] *)
Definition add_if (kwargs : dict) (k out : string) (f : value -> value) (schema : dict) : dict :=
  match get_truthy kwargs k with
  | Some v => dict_merge schema [(out, f v)]
  | None => schema
  end.

(** [plain_text_object(x)] as a value, for optional text fields. *)
Definition plain_text (x : value) : value := VDict (plain_text_object x).

(** The condition of [button]: all four confirmation keywords truthy. *)
Definition confirm_given (kwargs : dict) : bool :=
  truthy (py_get kwargs "confirm_title") && truthy (py_get kwargs "confirm_text") &&
  truthy (py_get kwargs "confirm_approve_text") && truthy (py_get kwargs "confirm_deny_text").

(** [button( **kwargs)] *)
Definition button (kwargs : dict) : pyres dict :=
  text ← kw kwargs "text";
  value ← kw kwargs "value";
  action_id ← kw kwargs "action_id";
  let schema := [("type", VStr "button"); ("text", plain_text text);
                 ("value", value); ("action_id", action_id)] in
  let schema := add_if kwargs "url" "url" id schema in
  if confirm_given kwargs then
    c ← confirm kwargs; mret (dict_merge schema [("confirm", VDict c)])
  else mret schema.

(** [plain_text_input( **kwargs)] *)
Definition plain_text_input (kwargs : dict) : pyres dict :=
  action_id ← kw kwargs "action_id";
  let schema := [("type", VStr "plain_text_input"); ("action_id", action_id)] in
  let schema := add_if kwargs "placeholder" "placeholder" plain_text schema in
  mret (add_if kwargs "multiline" "multiline" id schema).

(** [static_select( **kwargs)]: [type] is copied from the caller, so it
    serves both [static_select] and [multi_static_select]. *)
Definition static_select (kwargs : dict) : pyres dict :=
  ty ← kw kwargs "type";
  options ← kw kwargs "options";
  opts ← option_items options;
  action_id ← kw kwargs "action_id";
  let schema := [("type", ty); ("options", VList opts); ("action_id", action_id)] in
  mret (add_if kwargs "placeholder" "placeholder" plain_text schema).

(** [conversations_select( **kwargs)]: the [initial_convo] argument is
    emitted under the key [initial_user]. *)
Definition conversations_select (kwargs : dict) : pyres dict :=
  ty ← kw kwargs "type";
  action_id ← kw kwargs "action_id";
  let schema := [("type", ty); ("action_id", action_id)] in
  let schema := add_if kwargs "placeholder" "placeholder" plain_text schema in
  mret (add_if kwargs "initial_convo" "initial_user" id schema).

(** [users_select( **kwargs)] *)
Definition users_select (kwargs : dict) : pyres dict :=
  ty ← kw kwargs "type";
  action_id ← kw kwargs "action_id";
  let schema := [("type", ty); ("action_id", action_id)] in
  let schema := add_if kwargs "placeholder" "placeholder" plain_text schema in
  mret (add_if kwargs "initial_user" "initial_user" id schema).

(** [channels_select( **kwargs)] *)
Definition channels_select (kwargs : dict) : pyres dict :=
  ty ← kw kwargs "type";
  action_id ← kw kwargs "action_id";
  let schema := [("type", ty); ("action_id", action_id)] in
  let schema := add_if kwargs "placeholder" "placeholder" plain_text schema in
  mret (add_if kwargs "initial_channel" "initial_channel" id schema).

(** [datepicker( **kwargs)] *)
Definition datepicker (kwargs : dict) : pyres dict :=
  action_id ← kw kwargs "action_id";
  let schema := [("type", VStr "datepicker"); ("action_id", action_id)] in
  let schema := add_if kwargs "placeholder" "placeholder" plain_text schema in
  mret (add_if kwargs "initial_date" "initial_date" id schema).

(** [timepicker( **kwargs)] *)
Definition timepicker (kwargs : dict) : pyres dict :=
  action_id ← kw kwargs "action_id";
  let schema := [("type", VStr "timepicker"); ("action_id", action_id)] in
  let schema := add_if kwargs "placeholder" "placeholder" plain_text schema in
  mret (add_if kwargs "initial_time" "initial_time" id schema).

(** [checkboxes( **kwargs)] *)
Definition checkboxes (kwargs : dict) : pyres dict :=
  options ← kw kwargs "options";
  opts ← option_items options;
  action_id ← kw kwargs "action_id";
  mret [("type", VStr "checkboxes"); ("options", VList opts); ("action_id", action_id)].

(** [radio_buttons( **kwargs)] *)
Definition radio_buttons (kwargs : dict) : pyres dict :=
  options ← kw kwargs "options";
  opts ← option_items options;
  action_id ← kw kwargs "action_id";
  mret [("type", VStr "radio_buttons"); ("options", VList opts); ("action_id", action_id)].

(** [overflow( **kwargs)] *)
Definition overflow (kwargs : dict) : pyres dict :=
  options ← kw kwargs "options";
  opts ← option_items options;
  action_id ← kw kwargs "action_id";
  mret [("type", VStr "overflow"); ("options", VList opts); ("action_id", action_id)].

(** [image( **kwargs)] *)
Definition image (kwargs : dict) : pyres dict :=
  image_url ← kw kwargs "image_url";
  alt_text ← kw kwargs "alt_text";
  let schema := [("type", VStr "image"); ("image_url", image_url); ("alt_text", alt_text)] in
  mret (add_if kwargs "title" "title" plain_text schema).

(** ** The element interface

    What every element constructor promises to the blocks that embed
    it ([section], [input_type], [actions]): the keyword arguments it
    requires, read in this order, and the optional ones it copies
    (keyword, output key, conversion) when they are truthy, and every
    keyword it reads at all. *)

Record element_spec := ElementSpec {
  es_build : dict -> pyres dict;
  es_required : list string;
  es_optional : list (string * string * (value -> value));
  es_reads : list string
}.

(** The four keywords of a confirmation dialog, read by [button]. *)
Definition confirm_keys : list string :=
  ["confirm_title"; "confirm_text"; "confirm_approve_text"; "confirm_deny_text"].

Definition elements_table : list element_spec := [
  ElementSpec button ["text"; "value"; "action_id"] [("url", "url", id)]
    (["text"; "value"; "action_id"; "url"] ++ confirm_keys);
  ElementSpec plain_text_input ["action_id"]
    [("placeholder", "placeholder", plain_text); ("multiline", "multiline", id)]
    ["action_id"; "placeholder"; "multiline"];
  ElementSpec static_select ["type"; "options"; "action_id"]
    [("placeholder", "placeholder", plain_text)] ["type"; "options"; "action_id"; "placeholder"];
  ElementSpec conversations_select ["type"; "action_id"]
    [("placeholder", "placeholder", plain_text); ("initial_convo", "initial_user", id)]
    ["type"; "action_id"; "placeholder"; "initial_convo"];
  ElementSpec users_select ["type"; "action_id"]
    [("placeholder", "placeholder", plain_text); ("initial_user", "initial_user", id)]
    ["type"; "action_id"; "placeholder"; "initial_user"];
  ElementSpec channels_select ["type"; "action_id"]
    [("placeholder", "placeholder", plain_text); ("initial_channel", "initial_channel", id)]
    ["type"; "action_id"; "placeholder"; "initial_channel"];
  ElementSpec datepicker ["action_id"]
    [("placeholder", "placeholder", plain_text); ("initial_date", "initial_date", id)]
    ["action_id"; "placeholder"; "initial_date"];
  ElementSpec timepicker ["action_id"]
    [("placeholder", "placeholder", plain_text); ("initial_time", "initial_time", id)]
    ["action_id"; "placeholder"; "initial_time"];
  ElementSpec checkboxes ["options"; "action_id"] [] ["options"; "action_id"];
  ElementSpec radio_buttons ["options"; "action_id"] [] ["options"; "action_id"];
  ElementSpec overflow ["options"; "action_id"] [] ["options"; "action_id"];
  ElementSpec image ["image_url"; "alt_text"] [("title", "title", plain_text)]
    ["image_url"; "alt_text"; "title"]
].

(** Optional keys appear exactly when their argument is truthy, with
    the converted value. *)
Definition optional_law (e : element_spec) : Prop :=
  forall kwargs s, es_build e kwargs = Ok s ->
  Forall (fun '(k, out, f) => dict_lookup out s = f <$> get_truthy kwargs k) (es_optional e).

(** A missing required argument raises [KeyError] for the first one
    missing, provided the option list, when present, converts. *)
Definition missing_law (e : element_spec) : Prop :=
  forall kwargs k,
  first_missing kwargs (es_required e) = Some k ->
  (forall o, dict_lookup "options" kwargs = Some o -> exists l, option_items o = Ok l) ->
  es_build e kwargs = Err (KeyError (VStr k)).

(** Success needs every required argument. *)
Definition required_law (e : element_spec) : Prop :=
  forall kwargs s, es_build e kwargs = Ok s -> first_missing kwargs (es_required e) = None.

(** Well-formed arguments give a well-formed element whose first key
    is its [type] tag. *)
Definition wf_law (e : element_spec) : Prop :=
  forall kwargs s, Forall (fun kv => wf_value kv.2 = true) kwargs -> es_build e kwargs = Ok s ->
  wf_dict s /\ exists ty rest, s = ("type", ty) :: rest.

(** Locality: the constructor reads no keyword outside [es_reads], so
    two keyword dicts that agree there give the same result, error or
    dict.  This is what lets [section] and [input_type] pass their own
    keyword dict, with the block's arguments in it, to the element. *)
Definition frame_law (e : element_spec) : Prop :=
  forall kw1 kw2, (forall k, k ∈ es_reads e -> dict_lookup k kw1 = dict_lookup k kw2) ->
  es_build e kw1 = es_build e kw2.

(** A constructor ignores the keywords [X]: changing them, and only
    them, never changes its result. *)
Definition ignores (X : list string) (build : dict -> pyres dict) : Prop :=
  forall kw1 kw2, (forall k, k ∉ X -> dict_lookup k kw1 = dict_lookup k kw2) ->
  build kw1 = build kw2.

(** ** Proof automation for the element constructors *)

Ltac forall_list := repeat (apply Forall_cons_2 || apply Forall_nil_2).

Tactic Notation "unfold_elements" "in" "*" :=
  unfold button, plain_text_input, static_select, conversations_select, users_select,
    channels_select, datepicker, timepicker, checkboxes, radio_buttons, overflow, image in *.

(** Run a successful constructor call [H : build kwargs = Ok s]: name
    every value it read and take every branch it took. *)
Ltac run_build H :=
  cbn [es_build] in H; unfold_elements in *;
  repeat first [ progress res_inv
               | match goal with H' : (if ?b then _ else _) = Ok _ |- _ => destruct b eqn:? end ];
  subst;
  repeat match goal with Hk : kw _ _ = Ok _ |- _ => apply kw_Ok in Hk end.

(** ** The laws hold for every element *)

Lemma elements_optional : Forall optional_law elements_table.
Proof.
  forall_list; intros kwargs s H; run_build H; unfold add_if; simpl;
  forall_list; simpl; repeat case_match; simplify_eq/=; reflexivity.
Qed.

Lemma elements_required : Forall required_law elements_table.
Proof.
  forall_list; intros kwargs s H; run_build H; simpl;
  repeat match goal with Hk : dict_lookup _ _ = Some _ |- _ => rewrite Hk; clear Hk end;
  reflexivity.
Qed.

Lemma elements_missing : Forall missing_law elements_table.
Proof.
  forall_list; intros kwargs k Hm Hopt; cbn [es_build es_required] in *; unfold_elements in *;
  unfold kw, getitem; simpl in Hm;
  repeat (case_match; simplify_eq/=); try done;
  destruct (Hopt _ eq_refl) as [? ->]; reflexivity.
Qed.

Lemma elements_wf : Forall wf_law elements_table.
Proof.
  forall_list; intros kwargs s Hkw H; run_build H;
  unfold add_if, plain_text, plain_text_object; repeat case_match; simplify_eq/=;
  repeat match goal with
    | Hg : get_truthy _ _ = Some _ |- _ => apply get_truthy_Some in Hg as [Hg _]
    | Hk : dict_lookup _ kwargs = Some _ |- _ => apply (dict_lookup_wf _ _ _ Hkw) in Hk
    | Ho : option_items _ = Ok _ |- _ => apply option_items_wf in Ho; [|assumption]
    | Hc : confirm _ = Ok _ |- _ => apply confirm_wf in Hc; [|assumption]
    end;
  (split; [wf_solve | eauto]).
Qed.

(** Rewrite every lookup of [kw1] that is not under a binder with the
    agreement hypothesis, then take its case, until both sides read
    [kw2] only. *)
Ltac frame_step H :=
  match goal with
  | |- context [dict_lookup ?k ?kw1] =>
      rewrite (H k) by compute_done; destruct (dict_lookup k _); simpl
  end.

Lemma elements_frame : Forall frame_law elements_table.
Proof.
  forall_list; intros kw1 kw2 H; cbn [es_build es_reads] in *; unfold_elements in *;
  unfold confirm, confirm_given, add_if, get_truthy, py_get, kw, getitem;
  repeat frame_step H; reflexivity.
Qed.

(** A constructor that meets the frame law ignores every keyword it
    does not read. *)
Lemma frame_ignores build req opt reads (X : list string) :
  frame_law (ElementSpec build req opt reads) -> Forall (fun k => k ∉ reads) X -> ignores X build.
Proof.
  intros Hf HX kw1 kw2 H. apply Hf. intros k Hk. apply H. intros HkX.
  rewrite Forall_forall in HX. by apply (HX k).
Qed.

(** ** Theorems *)

(** C2: every element constructor meets its contract: optional keys
    appear exactly when their argument is truthy (never as an empty
    placeholder), a success needs every required argument, the first
    missing one raises [KeyError], well-formed arguments give a
    well-formed dict whose first key is the [type] tag, and no keyword
    outside the ones it lists is ever read. *)
Theorem element_contract :
  Forall (fun e => optional_law e /\ required_law e /\ missing_law e /\ wf_law e /\ frame_law e)
    elements_table.
Proof.
  pose proof elements_optional as H1. pose proof elements_required as H2.
  pose proof elements_missing as H3. pose proof elements_wf as H4. pose proof elements_frame as H5.
  unfold elements_table in *. repeat match goal with H : Forall _ (_ :: _) |- _ => inversion_clear H end.
  forall_list; auto.
Qed.

Lemma confirm_given_ok (kwargs : dict) :
  confirm_given kwargs = true -> exists c, confirm kwargs = Ok c.
Proof.
  unfold confirm_given, py_get, confirm, kw, getitem. intros H.
  repeat case_match; simpl in *; rewrite ?andb_false_r in H; try discriminate; eauto.
Qed.

(** C1: with [text], [value] and [action_id] given and neither a truthy
    [url] nor all four confirmation arguments, [button] returns exactly
    the four-key dict, with no [url] or [confirm] key. *)
Theorem button_exact (kwargs : dict) (t v a : value) :
  dict_lookup "text" kwargs = Some t -> dict_lookup "value" kwargs = Some v ->
  dict_lookup "action_id" kwargs = Some a ->
  get_truthy kwargs "url" = None -> confirm_given kwargs = false ->
  button kwargs = Ok [("type", VStr "button"); ("text", plain_text t); ("value", v); ("action_id", a)].
Proof.
  intros Ht Hv Ha Hu Hc. unfold button, add_if.
  rewrite (kw_lookup _ _ _ Ht), (kw_lookup _ _ _ Hv), (kw_lookup _ _ _ Ha), Hu, Hc. reflexivity.
Qed.

Lemma button_exact_witness :
  button [("text", VStr "My Button"); ("value", VStr "my_button"); ("action_id", VStr "button_1")] =
    Ok [("type", VStr "button"); ("text", plain_text (VStr "My Button"));
        ("value", VStr "my_button"); ("action_id", VStr "button_1")].
Proof. apply button_exact; reflexivity. Defined.

(** C8: a successful [button] carries the confirmation dialog exactly
    when [kwargs.get] of all four of [confirm_title], [confirm_text],
    [confirm_approve_text] and [confirm_deny_text] is truthy: then its
    [confirm] key holds what [confirm( **kwargs)] returns; otherwise it
    has no [confirm] key, so a partial set is dropped silently rather
    than reported. *)
Theorem button_confirm_iff (kwargs : dict) (s : dict) :
  button kwargs = Ok s ->
  if truthy (py_get kwargs "confirm_title") && truthy (py_get kwargs "confirm_text") &&
     truthy (py_get kwargs "confirm_approve_text") && truthy (py_get kwargs "confirm_deny_text")
  then exists c, confirm kwargs = Ok c /\ dict_lookup "confirm" s = Some (VDict c)
  else dict_lookup "confirm" s = None.
Proof.
  intros H. unfold button in H. res_inv. subst. fold (confirm_given kwargs).
  destruct (confirm_given kwargs); res_inv; subst; unfold add_if; repeat case_match; simpl; eauto.
Qed.

Lemma button_confirm_iff_witness :
  let kwargs := [("text", VStr "Delete"); ("value", VStr "del"); ("action_id", VStr "delete_1");
                 ("confirm_title", VStr "Sure?"); ("confirm_text", VStr "It is final")] in
  button kwargs = Ok [("type", VStr "button"); ("text", plain_text (VStr "Delete"));
                      ("value", VStr "del"); ("action_id", VStr "delete_1")] /\
  dict_lookup "confirm" [("type", VStr "button"); ("text", plain_text (VStr "Delete"));
                      ("value", VStr "del"); ("action_id", VStr "delete_1")] = None.
Proof.
  intros kwargs. split; [reflexivity|].
  exact (button_confirm_iff kwargs _ eq_refl).
Defined.

(** C28: [button] fails only with the [KeyError] of the first missing
    argument among [text], [value], [action_id]; the confirmation
    dialog, when built, cannot fail. *)
Theorem button_error (kwargs : dict) (e : exn) :
  button kwargs = Err e <->
  exists k, first_missing kwargs ["text"; "value"; "action_id"] = Some k /\ e = KeyError (VStr k).
Proof.
  unfold button, kw, getitem. simpl.
  destruct (confirm_given kwargs) eqn:Hc;
    [destruct (confirm_given_ok _ Hc) as [c Hconf]; rewrite Hconf|];
    repeat case_match; simpl; split; intros; simplify_eq; naive_solver.
Qed.

(** C7: [conversations_select] copies its [initial_convo] argument
    under the key [initial_user]; it never emits
    [initial_conversation]. *)
Theorem conversations_select_initial_key (kwargs : dict) (s : dict) :
  conversations_select kwargs = Ok s ->
  dict_lookup "initial_conversation" s = None /\
  dict_lookup "initial_user" s = get_truthy kwargs "initial_convo".
Proof.
  intros H. unfold conversations_select in H. res_inv. subst. unfold add_if.
  repeat case_match; simpl; done.
Qed.

Lemma conversations_select_initial_key_witness :
  let kwargs := [("type", VStr "conversations_select"); ("action_id", VStr "convo_1");
                 ("initial_convo", VStr "C0123")] in
  conversations_select kwargs =
    Ok [("type", VStr "conversations_select"); ("action_id", VStr "convo_1");
        ("initial_user", VStr "C0123")] /\
  dict_lookup "initial_conversation" [("type", VStr "conversations_select");
        ("action_id", VStr "convo_1"); ("initial_user", VStr "C0123")] = None /\
  dict_lookup "initial_user" [("type", VStr "conversations_select");
        ("action_id", VStr "convo_1"); ("initial_user", VStr "C0123")] =
    get_truthy kwargs "initial_convo".
Proof.
  intros kwargs. split; [reflexivity|]. apply conversations_select_initial_key. reflexivity.
Defined.

(** C35: the option-list elements raise [IndexError] on an empty
    option list (the [items[0]] of [option_items]), before reading
    [action_id]. *)
Theorem option_elements_empty (kwargs : dict) :
  dict_lookup "options" kwargs = Some (VList []) ->
  checkboxes kwargs = Err IndexError /\ radio_buttons kwargs = Err IndexError /\
  overflow kwargs = Err IndexError /\
  (is_Some (dict_lookup "type" kwargs) -> static_select kwargs = Err IndexError).
Proof.
  intros Ho. unfold checkboxes, radio_buttons, overflow, static_select.
  rewrite (kw_lookup _ _ _ Ho). split_and!; try reflexivity.
  intros [t Ht]. by rewrite (kw_lookup _ _ _ Ht).
Qed.

Lemma option_elements_empty_witness :
  let kwargs := [("type", VStr "static_select"); ("options", VList []); ("action_id", VStr "s1")] in
  checkboxes kwargs = Err IndexError /\ radio_buttons kwargs = Err IndexError /\
  overflow kwargs = Err IndexError /\
  (is_Some (dict_lookup "type" kwargs) -> static_select kwargs = Err IndexError).
Proof. intros kwargs. apply option_elements_empty. reflexivity. Defined.
