(* ===== verification/ButtonHeap.v ===== *)
(** * [button] with object identity ([src/modal.py], lines 47-86 and 196-214)

    [button] written over the heap of [PyHeap]: every dict display
    allocates a new dict, in the order the code evaluates them, and a
    value taken from [kwargs] is stored as the caller's reference.
    [plain_text_object_h] and [confirm_h] are [plain_text_object] and
    [confirm] in the same style.

    Each dict display written in the source is one allocation, made
    once its items have been evaluated.  CPython's compiled code
    allocates more: the outer dict of a display that starts with
    [**schema] is created before its later items are evaluated and
    then filled in place, the items [k: v] after an unpack are
    gathered in a short-lived dict of their own, and the call
    [confirm( **kwargs)] builds a fresh dict for its keywords.  No
    result can reach those extra dicts and none of them is mutated
    after the call, so the model keeps exactly the objects and
    references the results hold, but not CPython's count or order of
    allocations; the theorems say nothing about either.

    Two things are proved.  The heap model refines the value model of
    [Elements]: reading the result deeply gives exactly what [button]
    gives on the deep values of the arguments, error for error, which
    is what justifies modelling values as trees everywhere else.  And
    it shows what the value model cannot: two calls with the same
    arguments build distinct dicts that share the caller's [value]
    object, so mutating that object afterwards changes both results. *)

From Stdlib Require Import ZArith.
From stdpp Require Import base list strings.
From S2P Require Import Prelude PyValue PyHeap TextObjects Elements.

Open Scope string_scope.

(** [plain_text_object(text)] *)
Definition plain_text_object_h (h : heap) (text : hval) : heap * hval :=
  dict_lit h [("type", HStr "plain_text"); ("text", text); ("emoji", HBool true)].

(** [confirm( **kwargs)]: each inner dict is allocated as soon as its
    keyword has been read, then the outer dict. *)
Definition confirm_h (h : heap) (kwargs : hdict) : pyres (heap * hval) :=
  title ← hkw kwargs "confirm_title";
  let '(h, t) := dict_lit h [("type", HStr "plain_text"); ("text", title)] in
  text ← hkw kwargs "confirm_text";
  let '(h, x) := dict_lit h [("type", HStr "mrkdwn"); ("text", text)] in
  approve ← hkw kwargs "confirm_approve_text";
  let '(h, a) := dict_lit h [("type", HStr "plain_text"); ("text", approve)] in
  deny ← hkw kwargs "confirm_deny_text";
  let '(h, d) := dict_lit h [("type", HStr "plain_text"); ("text", deny)] in
  mret (dict_lit h [("title", t); ("text", x); ("confirm", a); ("deny", d)]).

(** The condition of [button] on the caller's objects. *)
Definition confirm_given_h (h : heap) (kwargs : hdict) : bool :=
  htruthy h (hget kwargs "confirm_title") && htruthy h (hget kwargs "confirm_text") &&
  htruthy h (hget kwargs "confirm_approve_text") && htruthy h (hget kwargs "confirm_deny_text").

(** [button( **kwargs)] *)
Definition button_h (h : heap) (kwargs : hdict) : pyres (heap * hval) :=
  text ← hkw kwargs "text";
  let '(h, t) := plain_text_object_h h text in
  value ← hkw kwargs "value";
  action_id ← hkw kwargs "action_id";
  let '(h, s) := dict_lit h [("type", HStr "button"); ("text", t); ("value", value);
                             ("action_id", action_id)] in
  '(h, s) ←
    (if htruthy h (hget kwargs "url") then
       url ← hkw kwargs "url"; display h [DUnpack s; DPair "url" url]
     else mret (h, s));
  if confirm_given_h h kwargs then
    '(h, c) ← confirm_h h kwargs;
    let '(h, e) := dict_lit h [("confirm", c)] in
    display h [DUnpack s; DUnpack e]
  else mret (h, s).

(** The entry [k] of the dict object [r]. *)
Definition field (h : heap) (r : hval) (k : string) : option hval :=
  match r with
  | HRef l => match h !! l with Some (ODict d) => hlookup k d | _ => None end
  | _ => None
  end.

(** The keyword arguments of the witnesses: the [value] is the list
    object at location 0. *)
Definition aliasing_kwargs : hdict :=
  [("text", HStr "Go"); ("value", HRef 0); ("action_id", HStr "go_1")].

Definition aliasing_values : dict :=
  [("text", VStr "Go"); ("value", VList [VStr "a"]); ("action_id", VStr "go_1")].

(** ** The heap model refines the value model *)

(** Run one keyword read on both sides: the same error, or a caller
    reference and its deep value. *)
Ltac kw_step Hd k :=
  destruct (hkw_freeze _ _ _ _ k Hd) as [(? & ? & -> & -> & ?) | [-> ->]]; simpl; [|done].

Lemma confirm_h_refines n h kwh kw :
  freeze_dict n h kwh = Some kw ->
  match confirm_h h kwh with
  | Ok (h', c) => h `prefix_of` h' /\
      exists cd, confirm kw = Ok cd /\ freeze (S (S n)) h' c = Some (VDict cd)
  | Err e => confirm kw = Err e
  end.
Proof.
  intros Hd. unfold confirm_h, confirm.
  kw_step Hd "confirm_title". kw_step Hd "confirm_text".
  kw_step Hd "confirm_approve_text". kw_step Hd "confirm_deny_text".
  split; [by repeat apply prefix_app_r|]. eexists. split; [reflexivity|]. freeze_solve.
Qed.

Lemma confirm_given_h_freeze n h kwh kw :
  freeze_dict n h kwh = Some kw -> confirm_given_h h kwh = confirm_given kw.
Proof. intros Hd. unfold confirm_given_h, confirm_given. by rewrite !(hget_truthy n h kwh kw). Qed.

(** [{**s, k: u}] and [{**s, **e}] on dict objects. *)
Lemma display_unpack_pair h l ds k u :
  h !! l = Some (ODict ds) ->
  display h [DUnpack (HRef l); DPair k u] = Ok (dict_lit h (hset k u (hmerge [] ds))).
Proof. intros Hl. unfold display. simpl. by rewrite Hl. Qed.

Lemma display_unpack2 h l1 l2 d1 d2 :
  h !! l1 = Some (ODict d1) -> h !! l2 = Some (ODict d2) ->
  display h [DUnpack (HRef l1); DUnpack (HRef l2)] = Ok (dict_lit h (hmerge (hmerge [] d1) d2)).
Proof. intros H1 H2. unfold display. simpl. by rewrite H1, H2. Qed.

(** The [confirm] part of [button], once the schema [s] is built on
    the heap [H]. *)
Ltac confirm_part Hd :=
  match goal with |- context [confirm_given_h ?H _] =>
    let HdH := fresh "HdH" in let Hc := fresh "Hc" in
    assert (HdH : freeze_dict _ H _ = Some _) by (repeat apply freeze_dict_app; exact Hd);
    rewrite (confirm_given_h_freeze _ _ _ _ HdH);
    pose proof (confirm_h_refines _ _ _ _ HdH) as Hc
  end;
  unfold plain_text, plain_text_object;
  match goal with |- context [if confirm_given ?kw then _ else _] => destruct (confirm_given kw) end;
  [ match goal with Hc : match confirm_h ?H ?k with _ => _ end |- _ =>
      destruct (confirm_h H k) as [[h' c]|e]; simpl; [|by rewrite Hc];
      destruct Hc as (Hp & cd & -> & Hc); simpl;
      erewrite display_unpack2;
        [| eapply lookup_app_l_Some, prefix_lookup_Some; [apply lookup_alloc | exact Hp]
         | apply lookup_alloc];
      simpl; split;
        [ apply prefix_app_r, prefix_app_r; etrans; [|exact Hp]; by repeat apply prefix_app_r
        | eexists; split; [reflexivity|]; freeze_solve ]
    end
  | simpl; split; [by repeat apply prefix_app_r | eexists; split; [reflexivity|]; freeze_solve] ].

Lemma button_h_sim n h kwh kw :
  freeze_dict n h kwh = Some kw ->
  match button_h h kwh with
  | Ok (h', r) => h `prefix_of` h' /\
      exists s, button kw = Ok s /\ freeze (S (S (S n))) h' r = Some (VDict s)
  | Err e => button kw = Err e
  end.
Proof.
  intros Hd. unfold button_h, button.
  kw_step Hd "text". kw_step Hd "value". kw_step Hd "action_id".
  match goal with |- context [htruthy ?H (hget kwh "url")] =>
    assert (HdH : freeze_dict n H kwh = Some kw) by (repeat apply freeze_dict_app; exact Hd);
    pose proof (hget_get_truthy _ _ _ _ "url" HdH) as Hu
  end.
  unfold add_if. destruct (htruthy _ (hget kwh "url")).
  - destruct Hu as (u & uw & -> & -> & Hu). simpl. erewrite display_unpack_pair by apply lookup_alloc.
    simpl. confirm_part Hd.
  - rewrite Hu. simpl. confirm_part Hd.
Qed.

(** ** Object identity of the results *)

Lemma confirm_h_prefix h kwh h' c : confirm_h h kwh = Ok (h', c) -> h `prefix_of` h'.
Proof.
  unfold confirm_h.
  destruct (hkw kwh "confirm_title"), (hkw kwh "confirm_text"), (hkw kwh "confirm_approve_text"),
    (hkw kwh "confirm_deny_text"); simpl; intros H; try discriminate.
  injection H as <- <-. by repeat apply prefix_app_r.
Qed.

(** The result of [button] is a dict allocated by the call, whose
    [value] entry is the caller's [kwargs['value']] itself. *)
Lemma button_h_value h kwh v h' r :
  hkw kwh "value" = Ok v -> button_h h kwh = Ok (h', r) ->
  h `prefix_of` h' /\ exists l d, r = HRef l /\ length h <= l /\
    h' !! l = Some (ODict d) /\ hlookup "value" d = Some v.
Proof.
  intros Hv. unfold button_h. rewrite Hv.
  destruct (hkw kwh "text"), (hkw kwh "action_id"); simpl; try discriminate.
  match goal with |- context [if htruthy ?H ?u then _ else _] => destruct (htruthy H u) end;
    [destruct (hkw kwh "url"); simpl; [|discriminate];
     erewrite display_unpack_pair by apply lookup_alloc|]; cbv [mret res_ret]; simpl;
  (match goal with |- context [if confirm_given_h ?H ?k then _ else _] =>
     destruct (confirm_given_h H k) end; simpl;
   [ match goal with |- context [confirm_h ?H ?k] =>
       destruct (confirm_h H k) as [[h'' c]|] eqn:Hc; simpl; [|discriminate] end;
     apply confirm_h_prefix in Hc;
     erewrite display_unpack2;
       [| eapply lookup_app_l_Some, prefix_lookup_Some; [apply lookup_alloc | exact Hc]
        | apply lookup_alloc]
   | ]); cbv [mret res_ret dict_lit alloc];
  intros H; injection H as <- <-;
  (split; [repeat apply prefix_app_r; try (etrans; [|exact Hc]); by repeat apply prefix_app_r|]);
  do 2 eexists; (split; [reflexivity|]); (split; [|split; [apply lookup_alloc | reflexivity]]);
  rewrite ?length_app; simpl;
  try (apply prefix_length in Hc; rewrite ?length_app in Hc; simpl in Hc); lia.
Qed.

(** ** Theorems *)

(** C12: the heap model of [button] refines its value model: on
    arguments whose deep values are [kw], a call either raises the
    error [button kw] raises or returns a new dict, on a heap that
    only grew, whose deep value is the dict [button kw] returns.
    Reading the caller's objects as trees, as the other files do, is
    therefore exact for [button]. *)
Theorem button_heap_refinement n h kwh kw :
  freeze_dict n h kwh = Some kw ->
  match button_h h kwh with
  | Ok (h', r) => h `prefix_of` h' /\
      exists s, button kw = Ok s /\ freeze (S (S (S n))) h' r = Some (VDict s)
  | Err e => button kw = Err e
  end.
Proof. apply button_h_sim. Qed.

Lemma button_heap_refinement_witness :
  freeze_dict 1 [OList [HStr "a"]] aliasing_kwargs = Some aliasing_values /\
  match button_h [OList [HStr "a"]] aliasing_kwargs with
  | Ok (h', r) => [OList [HStr "a"]] `prefix_of` h' /\
      exists s, button aliasing_values = Ok s /\ freeze 4 h' r = Some (VDict s)
  | Err e => button aliasing_values = Err e
  end.
Proof. split; [reflexivity|]. apply (button_heap_refinement 1). reflexivity. Defined.

(** C13: two calls of [button] with the same arguments return two
    distinct dicts with the same deep value, and the [value] entry of
    both is the caller's object itself: when it is a list, the two
    results share it, and a later [append] by the caller shows in
    both.  The specification asks for structurally equal outputs with
    no shared mutable aliasing; the first half holds, the second does
    not. *)
Theorem button_aliasing n h kwh kw l h1 r1 h2 r2 :
  freeze_dict n h kwh = Some kw -> hkw kwh "value" = Ok (HRef l) ->
  button_h h kwh = Ok (h1, r1) -> button_h h1 kwh = Ok (h2, r2) ->
  r1 <> r2 /\ freeze (S (S (S n))) h2 r1 = freeze (S (S (S n))) h2 r2 /\
  field h2 r1 "value" = Some (HRef l) /\ field h2 r2 "value" = Some (HRef l).
Proof.
  intros Hd Hv B1 B2.
  pose proof (button_h_sim _ _ _ _ Hd) as S1. rewrite B1 in S1. destruct S1 as (P1 & s & Hs & F1).
  pose proof (button_h_sim _ _ _ _ (freeze_dict_prefix _ _ _ _ _ P1 Hd)) as S2.
  rewrite B2 in S2. destruct S2 as (P2 & s' & Hs' & F2). rewrite Hs in Hs'. injection Hs' as <-.
  destruct (button_h_value _ _ _ _ _ Hv B1) as (_ & l1 & d1 & -> & _ & Hl1 & Hv1).
  destruct (button_h_value _ _ _ _ _ Hv B2) as (_ & l2 & d2 & -> & Hge & Hl2 & Hv2).
  assert (l1 < length h1) by (by apply lookup_lt_is_Some_1).
  split_and!.
  - intros [= ->]. lia.
  - by rewrite F2, (freeze_prefix _ _ _ _ _ P2 F1).
  - unfold field. assert (h2 !! l1 = Some (ODict d1)) as -> by (by eapply prefix_lookup_Some).
    done.
  - unfold field. by rewrite Hl2.
Qed.

(** Witness of C13: the list [['a']] passed as [value] to two calls;
    after the caller appends ['b'] to it, both results read it. *)
Lemma button_aliasing_witness :
  exists h1 r1 h2 r2,
    button_h [OList [HStr "a"]] aliasing_kwargs = Ok (h1, r1) /\
    button_h h1 aliasing_kwargs = Ok (h2, r2) /\
    r1 <> r2 /\ field h2 r1 "value" = Some (HRef 0) /\ field h2 r2 "value" = Some (HRef 0) /\
    exists h3, list_append h2 0 (HStr "b") = Some h3 /\
      h3 !! 0 = Some (OList [HStr "a"; HStr "b"]).
Proof.
  do 4 eexists. split; [reflexivity|]. split; [reflexivity|].
  destruct (button_aliasing 1 [OList [HStr "a"]] aliasing_kwargs aliasing_values 0 _ _ _ _
              eq_refl eq_refl eq_refl eq_refl) as (Hne & _ & H1 & H2).
  split_and!; [exact Hne | exact H1 | exact H2 |]. eexists. split; reflexivity.
Defined.
