(* ===== verification/Blocks.v ===== *)
(** * Layout blocks ([src/modal.py], lines 97-182)

    [section] and [input_type] dispatch on the string discriminator
    [kwargs['type']] through an [if]/[elif] chain and pass the same
    [kwargs] to the chosen element constructor; [actions] wraps a list
    of elements.  An unrecognised discriminator falls through every
    branch: no element is attached and nothing is raised. *)

From stdpp Require Import base list strings.
From S2P Require Import Prelude PyValue TextObjects OptionItems Elements.

Open Scope string_scope.

(** [schema = {**schema, **{key: build( **kwargs)}}] *)
Definition attach (key : string) (build : dict -> pyres dict) (kwargs : dict) (schema : dict)
    : pyres dict :=
  el ← build kwargs; mret (dict_merge schema [(key, VDict el)]).

(** [section( **kwargs)].  The branches compare [kwargs['type']],
    which cannot raise there: the enclosing test found it truthy. *)
Definition section (kwargs : dict) : pyres dict :=
  section_text ← kw kwargs "section_text";
  let schema := [("type", VStr "section"); ("text", VDict (mrkdwn_object section_text))] in
  if truthy (py_get kwargs "type") then
    ty ← kw kwargs "type";
    if eq_str ty "button" then attach "accessory" button kwargs schema
    else if eq_str ty "image" then attach "accessory" image kwargs schema
    else if eq_str ty "datepicker" then attach "accessory" datepicker kwargs schema
    else if eq_str ty "timepicker" then attach "accessory" timepicker kwargs schema
    else if eq_str ty "static_select" || eq_str ty "multi_static_select" then
      attach "accessory" static_select kwargs schema
    else if eq_str ty "users_select" || eq_str ty "multi_users_select" then
      attach "accessory" users_select kwargs schema
    else if eq_str ty "checkboxes" then attach "accessory" checkboxes kwargs schema
    else if eq_str ty "radio_buttons" then attach "accessory" radio_buttons kwargs schema
    else if eq_str ty "overflow" then attach "accessory" overflow kwargs schema
    else if eq_str ty "fields" then
      fields_list ← kw kwargs "fields_list";
      items ← py_iter fields_list;
      mret [("type", VStr "section");
            ("fields", VList (map (fun item => VDict (mrkdwn_object item)) items))]
    else mret schema
  else mret schema.

(** [actions(items)] *)
Definition actions (items : value) : dict := [("type", VStr "actions"); ("elements", items)].

(** [input_type( **kwargs)]: the element first, then [optional] when
    truthy, then the [label], read last. *)
Definition input_type (kwargs : dict) : pyres dict :=
  ty ← kw kwargs "type";
  let schema := [("type", VStr "input")] in
  schema ←
    (if eq_str ty "plain_text_input" then attach "element" plain_text_input kwargs schema
     else if eq_str ty "datepicker" then attach "element" datepicker kwargs schema
     else if eq_str ty "timepicker" then attach "element" timepicker kwargs schema
     else if eq_str ty "static_select" || eq_str ty "multi_static_select" then
       attach "element" static_select kwargs schema
     else if eq_str ty "conversations_select" || eq_str ty "multi_conversations_select" then
       attach "element" conversations_select kwargs schema
     else if eq_str ty "channels_select" || eq_str ty "multi_channels_select" then
       attach "element" channels_select kwargs schema
     else if eq_str ty "users_select" || eq_str ty "multi_users_select" then
       attach "element" users_select kwargs schema
     else if eq_str ty "checkboxes" then attach "element" checkboxes kwargs schema
     else if eq_str ty "radio_buttons" then attach "element" radio_buttons kwargs schema
     else mret schema);
  let schema := add_if kwargs "optional" "optional" id schema in
  label ← kw kwargs "label";
  mret (dict_merge schema [("label", plain_text label)]).

(** ** Reference specification of the dispatch

    The variants each block recognises, as a table from discriminator
    to element constructor, and the block defined by a lookup in that
    table. *)

Fixpoint table_find {A} (t : string) (tbl : list (string * A)) : option A :=
  match tbl with
  | [] => None
  | (k, a) :: tbl' => if String.eqb t k then Some a else table_find t tbl'
  end.

Definition section_accessories : list (string * (dict -> pyres dict)) :=
  [("button", button); ("image", image); ("datepicker", datepicker);
   ("timepicker", timepicker); ("static_select", static_select);
   ("multi_static_select", static_select); ("users_select", users_select);
   ("multi_users_select", users_select); ("checkboxes", checkboxes);
   ("radio_buttons", radio_buttons); ("overflow", overflow)].

Definition input_elements : list (string * (dict -> pyres dict)) :=
  [("plain_text_input", plain_text_input); ("datepicker", datepicker);
   ("timepicker", timepicker); ("static_select", static_select);
   ("multi_static_select", static_select); ("conversations_select", conversations_select);
   ("multi_conversations_select", conversations_select);
   ("channels_select", channels_select); ("multi_channels_select", channels_select);
   ("users_select", users_select); ("multi_users_select", users_select);
   ("checkboxes", checkboxes); ("radio_buttons", radio_buttons)].

(** The [fields] form of a section. *)
Definition section_fields_form (kwargs : dict) : pyres dict :=
  fields_list ← kw kwargs "fields_list";
  items ← py_iter fields_list;
  mret [("type", VStr "section");
        ("fields", VList (map (fun item => VDict (mrkdwn_object item)) items))].

Definition section_ref (kwargs : dict) : pyres dict :=
  section_text ← kw kwargs "section_text";
  let schema := [("type", VStr "section"); ("text", VDict (mrkdwn_object section_text))] in
  match get_truthy kwargs "type" with
  | Some (VStr t) =>
      match table_find t section_accessories with
      | Some build => attach "accessory" build kwargs schema
      | None => if String.eqb t "fields" then section_fields_form kwargs else mret schema
      end
  | _ => mret schema
  end.

Definition input_type_ref (kwargs : dict) : pyres dict :=
  ty ← kw kwargs "type";
  let schema := [("type", VStr "input")] in
  schema ←
    match ty with
    | VStr t =>
        match table_find t input_elements with
        | Some build => attach "element" build kwargs schema
        | None => mret schema
        end
    | _ => mret schema
    end;
  let schema := add_if kwargs "optional" "optional" id schema in
  label ← kw kwargs "label";
  mret (dict_merge schema [("label", plain_text label)]).

(** The element step of [input_type]: the dict before [optional] and
    [label] are added. *)
Definition input_element_step (kwargs : dict) (ty : value) : pyres dict :=
  match ty with
  | VStr t =>
      match table_find t input_elements with
      | Some build => attach "element" build kwargs [("type", VStr "input")]
      | None => mret [("type", VStr "input")]
      end
  | _ => mret [("type", VStr "input")]
  end.

(** ** Theorems *)

Lemma section_eq_ref (kwargs : dict) : section kwargs = section_ref kwargs.
Proof.
  unfold section, section_ref.
  destruct (kw kwargs "section_text") as [st|]; [|done]. simpl.
  unfold get_truthy, py_get.
  destruct (dict_lookup "type" kwargs) as [ty|] eqn:Hty; [|done].
  destruct (truthy ty); [|done]. rewrite (kw_lookup _ _ _ Hty). simpl.
  destruct ty as [| | | t | |]; try done. simpl.
  repeat (case_match; simplify_eq/=); done.
Qed.

Lemma input_type_eq_ref (kwargs : dict) : input_type kwargs = input_type_ref kwargs.
Proof.
  unfold input_type, input_type_ref.
  destruct (kw kwargs "type") as [ty|]; [|done]. simpl.
  destruct ty as [| | | t | |]; try done. simpl.
  repeat (case_match; simplify_eq/=); done.
Qed.

(** C4: the [if]/[elif] chain of [section] is equivalent to a lookup
    of the discriminator in the table of recognised accessories, with
    [fields] handled apart and every other value ignored. *)
Theorem section_dispatch (kwargs : dict) : section kwargs = section_ref kwargs.
Proof. apply section_eq_ref. Qed.

(** C5: the [if]/[elif] chain of [input_type] is equivalent to a
    lookup of [kwargs['type']] in the table of recognised input
    elements; any other value leaves the block without an element. *)
Theorem input_type_dispatch (kwargs : dict) : input_type kwargs = input_type_ref kwargs.
Proof. apply input_type_eq_ref. Qed.

Lemma table_find_nonempty {A} (t : string) (tbl : list (string * A)) (a : A) :
  Forall (fun ka => ka.1 <> "") tbl -> table_find t tbl = Some a -> t <> "".
Proof.
  induction 1 as [|[k a'] tbl Hk _ IH]; simpl; [done|].
  destruct (String.eqb_spec t k); [subst; done | auto].
Qed.

Lemma get_truthy_str (kwargs : dict) (k t : string) :
  dict_lookup k kwargs = Some (VStr t) -> t <> "" -> get_truthy kwargs k = Some (VStr t).
Proof.
  intros H Ht. unfold get_truthy. rewrite H. simpl.
  by destruct (String.eqb_spec t "").
Qed.

(** C19: a [section] whose discriminator is a str it does not recognise
    (not an accessory kind and not [fields]) is built without any
    accessory, and no error is raised. *)
Theorem section_unrecognised (kwargs : dict) (st : value) (t : string) :
  dict_lookup "section_text" kwargs = Some st -> dict_lookup "type" kwargs = Some (VStr t) ->
  table_find t section_accessories = None -> t <> "fields" ->
  section kwargs = Ok [("type", VStr "section"); ("text", VDict (mrkdwn_object st))].
Proof.
  intros Hs Ht Hf Hne. rewrite section_eq_ref. unfold section_ref.
  rewrite (kw_lookup _ _ _ Hs).
  destruct (String.eqb_spec t "") as [->|Hnz]; [unfold get_truthy; by rewrite Ht|].
  rewrite (get_truthy_str _ _ _ Ht Hnz), Hf. simpl.
  by destruct (String.eqb_spec t "fields").
Qed.

Lemma section_unrecognised_witness :
  let kwargs := [("section_text", VStr "Pick a channel"); ("type", VStr "channels_select");
                 ("action_id", VStr "ch_1")] in
  section kwargs = Ok [("type", VStr "section"); ("text", VDict (mrkdwn_object (VStr "Pick a channel")))].
Proof. intros kwargs. apply (section_unrecognised kwargs _ "channels_select"); done. Defined.

(** C18: in the [fields] form the result has a [fields] list of mrkdwn
    objects and no [text], yet [section_text] is still required: a
    section without it raises [KeyError] before [fields_list] is
    read. *)
Theorem section_fields (kwargs : dict) :
  dict_lookup "type" kwargs = Some (VStr "fields") ->
  section kwargs =
    match dict_lookup "section_text" kwargs with
    | None => Err (KeyError (VStr "section_text"))
    | Some _ => section_fields_form kwargs
    end.
Proof.
  intros Ht. rewrite section_eq_ref. unfold section_ref, kw at 1, getitem.
  destruct (dict_lookup "section_text" kwargs); [|done]. simpl.
  by rewrite (get_truthy_str _ _ _ Ht).
Qed.

Lemma section_fields_witness :
  let kwargs := [("type", VStr "fields"); ("fields_list", VList [VStr "*A*"; VStr "*B*"])] in
  dict_lookup "type" kwargs = Some (VStr "fields") /\
  section kwargs = Err (KeyError (VStr "section_text")).
Proof. intros kwargs. split; [reflexivity|]. by rewrite section_fields. Defined.

(** C20: with a recognised accessory kind, the section is the text
    section plus an [accessory] key holding what the element
    constructor returns for the same arguments; the element's errors
    propagate unchanged. *)
Theorem section_accessory (kwargs : dict) (st : value) (t : string) build :
  dict_lookup "section_text" kwargs = Some st -> dict_lookup "type" kwargs = Some (VStr t) ->
  table_find t section_accessories = Some build ->
  section kwargs =
    (el ← build kwargs;
     mret [("type", VStr "section"); ("text", VDict (mrkdwn_object st)); ("accessory", VDict el)]).
Proof.
  intros Hs Ht Hf. rewrite section_eq_ref. unfold section_ref.
  rewrite (kw_lookup _ _ _ Hs).
  rewrite (get_truthy_str _ _ _ Ht); [|eapply table_find_nonempty; [|exact Hf]; forall_list; discriminate].
  rewrite Hf. unfold attach. simpl. by destruct (build kwargs).
Qed.

Lemma section_accessory_witness :
  let kwargs := [("section_text", VStr "Go"); ("type", VStr "button"); ("text", VStr "Click");
                 ("value", VStr "go"); ("action_id", VStr "go_1")] in
  section kwargs =
    Ok [("type", VStr "section"); ("text", VDict (mrkdwn_object (VStr "Go")));
        ("accessory", VDict [("type", VStr "button"); ("text", plain_text (VStr "Click"));
                             ("value", VStr "go"); ("action_id", VStr "go_1")])].
Proof. intros kwargs. rewrite (section_accessory kwargs (VStr "Go") "button" button); done. Defined.

(** C21: no section has both [fields] and either [text] or an
    [accessory]: the single discriminator makes the combination the
    specification forbids impossible to build. *)
Theorem section_no_combination (kwargs : dict) (s : dict) :
  section kwargs = Ok s ->
  dict_lookup "fields" s = None \/
  (dict_lookup "text" s = None /\ dict_lookup "accessory" s = None).
Proof.
  rewrite section_eq_ref. unfold section_ref, attach, section_fields_form. intros H.
  res_inv. subst. repeat (case_match; simplify_eq/=); res_inv; subst; simpl; auto.
Qed.

Lemma section_no_combination_witness :
  section [("section_text", VStr "x"); ("type", VStr "fields"); ("fields_list", VList [VStr "a"])]
    = Ok [("type", VStr "section"); ("fields", VList [VDict (mrkdwn_object (VStr "a"))])] /\
  (dict_lookup "fields" [("type", VStr "section"); ("fields", VList [VDict (mrkdwn_object (VStr "a"))])]
     = None \/
   (dict_lookup "text" [("type", VStr "section"); ("fields", VList [VDict (mrkdwn_object (VStr "a"))])]
      = None /\
    dict_lookup "accessory" [("type", VStr "section"); ("fields", VList [VDict (mrkdwn_object (VStr "a"))])]
      = None)).
Proof.
  split; [reflexivity|].
  apply (section_no_combination
    [("section_text", VStr "x"); ("type", VStr "fields"); ("fields_list", VList [VStr "a"])]).
  reflexivity.
Defined.


Lemma input_type_steps (kwargs : dict) :
  input_type kwargs =
    (ty ← kw kwargs "type";
     schema ← input_element_step kwargs ty;
     label ← kw kwargs "label";
     mret (dict_merge (add_if kwargs "optional" "optional" id schema) [("label", plain_text label)])).
Proof. rewrite input_type_eq_ref. reflexivity. Qed.

Lemma input_element_step_keys (kwargs : dict) (ty : value) (schema : dict) :
  input_element_step kwargs ty = Ok schema ->
  schema = [("type", VStr "input")] \/ exists el, schema = [("type", VStr "input"); ("element", VDict el)].
Proof.
  unfold input_element_step, attach. intros H.
  repeat case_match; res_inv; subst; simpl; eauto.
Qed.

(** C36: a successful [input_type] ends with its [label] key, holding
    the plain-text object of [kwargs['label']], after the element and
    the optional flag. *)
Theorem input_type_label_last (kwargs : dict) (s : dict) :
  input_type kwargs = Ok s ->
  exists rest l, s = (rest ++ [("label", plain_text l)])%list /\
                 dict_lookup "label" kwargs = Some l /\ "label" ∉ dict_keys rest.
Proof.
  rewrite input_type_steps. intros H. res_inv. subst.
  apply kw_Ok in H1.
  destruct (input_element_step_keys _ _ _ H0) as [-> | [el ->]];
    unfold add_if; case_match; simpl;
    match goal with |- exists rest l, ?s = _ /\ _ => exists (removelast s), x1 end;
    (split; [reflexivity|]); split; try done;
    apply (bool_decide_unpack _); vm_compute; exact I.
Qed.

Lemma input_type_label_last_witness :
  input_type [("type", VStr "plain_text_input"); ("action_id", VStr "name_1");
              ("label", VStr "Name")] =
    Ok ([("type", VStr "input");
         ("element", VDict [("type", VStr "plain_text_input"); ("action_id", VStr "name_1")])]
        ++ [("label", plain_text (VStr "Name"))])%list /\
  exists rest l, ([("type", VStr "input");
         ("element", VDict [("type", VStr "plain_text_input"); ("action_id", VStr "name_1")])]
        ++ [("label", plain_text (VStr "Name"))])%list = (rest ++ [("label", plain_text l)])%list /\
    dict_lookup "label" [("type", VStr "plain_text_input"); ("action_id", VStr "name_1");
              ("label", VStr "Name")] = Some l /\ "label" ∉ dict_keys rest.
Proof.
  split; [reflexivity|].
  apply input_type_label_last. reflexivity.
Defined.

(** C26: [input_type] raises [KeyError] for a missing [type]; otherwise
    the error of the element constructor it dispatches to; otherwise,
    and only then, [KeyError] for a missing [label]. *)
Theorem input_type_errors (kwargs : dict) (e : exn) :
  input_type kwargs = Err e <->
  (dict_lookup "type" kwargs = None /\ e = KeyError (VStr "type")) \/
  (exists ty, dict_lookup "type" kwargs = Some ty /\ input_element_step kwargs ty = Err e) \/
  (exists ty schema, dict_lookup "type" kwargs = Some ty /\ input_element_step kwargs ty = Ok schema /\
     dict_lookup "label" kwargs = None /\ e = KeyError (VStr "label")).
Proof.
  rewrite input_type_steps. unfold kw at 1 2, getitem at 1 2.
  destruct (dict_lookup "type" kwargs) as [ty|]; simpl.
  2: { split; [intros [= <-]; by left|].
       intros [[_ ->] | [(? & ? & _) | (? & ? & ? & _)]]; [done | discriminate | discriminate]. }
  destruct (input_element_step kwargs ty) as [schema|e'] eqn:Hst; simpl.
  2: { split; [intros [= <-]; right; left; eauto|].
       intros [[? _] | [(? & [= <-] & ?) | (? & ? & [= <-] & ? & _)]]; congruence. }
  destruct (dict_lookup "label" kwargs); simpl.
  - split; [intros H; discriminate H|].
    intros [[? _] | [(? & [= <-] & ?) | (? & ? & [= <-] & ? & ? & _)]]; congruence.
  - split.
    + intros H. inversion H; subst. right; right. by exists ty, schema.
    + intros [[? _] | [(? & Hty & ?) | (? & ? & _ & _ & _ & ->)]]; [done | | done].
      injection Hty as <-. congruence.
Qed.

(** C27: the [optional] key is present exactly when
    [kwargs.get('optional')] is truthy, and then holds that value. *)
Theorem input_type_optional (kwargs : dict) (s : dict) :
  input_type kwargs = Ok s -> dict_lookup "optional" s = get_truthy kwargs "optional".
Proof.
  rewrite input_type_steps. intros H. res_inv. subst.
  destruct (input_element_step_keys _ _ _ H0) as [-> | [el ->]];
    unfold add_if; case_match; reflexivity.
Qed.

Lemma input_type_optional_witness :
  input_type [("type", VStr "datepicker"); ("action_id", VStr "d1"); ("optional", VBool true);
              ("label", VStr "When")] =
    Ok [("type", VStr "input"); ("element", VDict [("type", VStr "datepicker"); ("action_id", VStr "d1")]);
        ("optional", VBool true); ("label", plain_text (VStr "When"))] /\
  dict_lookup "optional" [("type", VStr "input");
        ("element", VDict [("type", VStr "datepicker"); ("action_id", VStr "d1")]);
        ("optional", VBool true); ("label", plain_text (VStr "When"))] =
  get_truthy [("type", VStr "datepicker"); ("action_id", VStr "d1"); ("optional", VBool true);
              ("label", VStr "When")] "optional".
Proof. split; [reflexivity|]. apply input_type_optional. reflexivity. Defined.

(** ** The element of a block ignores the block's own arguments *)

(** The frame laws of the constructors a table names, one hypothesis
    per constructor, then [ignores] for each entry of the table. *)
Ltac table_ignores :=
  pose proof elements_frame as HF; unfold elements_table in HF;
  repeat match goal with H : Forall _ (_ :: _) |- _ => inversion_clear H end;
  forall_list; (eapply frame_ignores; [eassumption | forall_list; compute_done]).

Lemma input_elements_ignore :
  Forall (fun tb => ignores ["label"; "optional"] tb.2) input_elements.
Proof. table_ignores. Qed.

Lemma section_accessories_ignore :
  Forall (fun tb => ignores ["section_text"; "fields_list"] tb.2) section_accessories.
Proof. table_ignores. Qed.

Lemma table_find_elem_of {A} (t : string) (tbl : list (string * A)) (a : A) :
  table_find t tbl = Some a -> (t, a) ∈ tbl.
Proof.
  induction tbl as [|[k a'] tbl IH]; simpl; [done|].
  destruct (String.eqb_spec t k); intros H; simplify_eq; [left | right; auto].
Qed.

Lemma table_find_ignores (X : list string) (tbl : list (string * (dict -> pyres dict)))
    (t : string) build :
  Forall (fun tb => ignores X tb.2) tbl -> table_find t tbl = Some build -> ignores X build.
Proof.
  intros Hall Hf. apply table_find_elem_of in Hf. rewrite Forall_forall in Hall.
  exact (Hall _ Hf).
Qed.

Lemma input_element_step_frame (kw1 kw2 : dict) (ty : value) :
  (forall k, k <> "label" -> k <> "optional" -> dict_lookup k kw1 = dict_lookup k kw2) ->
  input_element_step kw1 ty = input_element_step kw2 ty.
Proof.
  intros H. destruct ty as [| | | t | |]; try done. unfold input_element_step.
  destruct (table_find t input_elements) as [build|] eqn:Hf; [|done].
  unfold attach. erewrite (table_find_ignores _ _ _ _ input_elements_ignore Hf); [done|].
  intros k Hk. apply H; intros ->; apply Hk; compute_done.
Qed.

(** [optional] and [label] never touch the [element] key. *)
Lemma input_element_lookup (kwargs kwargs' : dict) (ty : value) (schema : dict) (l : value) :
  input_element_step kwargs' ty = Ok schema ->
  dict_lookup "element" (dict_set "label" (plain_text l) (add_if kwargs "optional" "optional" id schema)) =
  dict_lookup "element" schema.
Proof.
  intros Hs. destruct (input_element_step_keys _ _ _ Hs) as [->|[el ->]];
    unfold add_if; by case_match.
Qed.

(** C22: the element of an input block does not depend on the block's
    [label] or [optional] arguments, although [input_type] passes its
    whole keyword dict, these included, to the element constructor:
    two successful calls whose keyword dicts agree on every other key
    carry the same element, or both none. *)
Theorem input_element_frame (kw1 kw2 s1 s2 : dict) :
  (forall k, k <> "label" -> k <> "optional" -> dict_lookup k kw1 = dict_lookup k kw2) ->
  input_type kw1 = Ok s1 -> input_type kw2 = Ok s2 ->
  dict_lookup "element" s1 = dict_lookup "element" s2.
Proof.
  intros H H1 H2. rewrite input_type_steps in H1, H2.
  assert (Ht : kw kw1 "type" = kw kw2 "type") by (unfold kw, getitem; by rewrite H).
  rewrite Ht in H1. destruct (kw kw2 "type") as [ty|]; [|done]. simpl in H1, H2.
  rewrite (input_element_step_frame kw1 kw2 ty H) in H1.
  destruct (input_element_step kw2 ty) as [sc|] eqn:Hs; [|done]. simpl in H1, H2.
  res_inv. subst. by rewrite !(input_element_lookup _ _ _ _ _ Hs).
Qed.

Lemma input_element_frame_witness :
  let kw1 := [("label", VStr "Due"); ("type", VStr "datepicker"); ("action_id", VStr "d1")] in
  let kw2 := [("type", VStr "datepicker"); ("action_id", VStr "d1");
              ("label", VStr "When"); ("optional", VBool true)] in
  exists s1 s2, input_type kw1 = Ok s1 /\ input_type kw2 = Ok s2 /\
                dict_lookup "element" s1 = dict_lookup "element" s2.
Proof.
  intros kw1 kw2. do 2 eexists. split; [reflexivity|]. split; [reflexivity|].
  apply (input_element_frame kw1 kw2); [|reflexivity..].
  intros k H1 H2. simpl. repeat case_decide; simplify_eq; done.
Defined.

(** C23: the accessory of a section does not depend on the section's
    [section_text] (nor on [fields_list]): two successful calls whose
    keyword dicts agree on every other key carry the same accessory, or
    both none. *)
Theorem section_accessory_frame (kw1 kw2 s1 s2 : dict) :
  (forall k, k <> "section_text" -> k <> "fields_list" -> dict_lookup k kw1 = dict_lookup k kw2) ->
  section kw1 = Ok s1 -> section kw2 = Ok s2 ->
  dict_lookup "accessory" s1 = dict_lookup "accessory" s2.
Proof.
  intros H H1 H2. rewrite section_eq_ref in H1, H2. unfold section_ref in H1, H2.
  assert (Ht : get_truthy kw1 "type" = get_truthy kw2 "type") by (unfold get_truthy; by rewrite H).
  rewrite Ht in H1. res_inv.
  destruct (get_truthy kw2 "type") as [[| | | t | |]|]; res_inv; subst; try done.
  destruct (table_find t section_accessories) as [build|] eqn:Hf.
  - assert (Hb : build kw1 = build kw2).
    { apply (table_find_ignores _ _ _ _ section_accessories_ignore Hf).
      intros k Hk. apply H; intros ->; apply Hk; compute_done. }
    unfold attach in *. rewrite Hb in *. res_inv. rewrite H2 in H3. by simplify_eq.
  - destruct (String.eqb t "fields"); unfold section_fields_form in *; res_inv; subst; done.
Qed.

Lemma section_accessory_frame_witness :
  let kw1 := [("section_text", VStr "Go"); ("type", VStr "button"); ("text", VStr "Click");
              ("value", VStr "go"); ("action_id", VStr "go_1")] in
  let kw2 := [("section_text", VStr "Leave"); ("type", VStr "button"); ("text", VStr "Click");
              ("value", VStr "go"); ("action_id", VStr "go_1")] in
  exists s1 s2, section kw1 = Ok s1 /\ section kw2 = Ok s2 /\
                dict_lookup "accessory" s1 = dict_lookup "accessory" s2.
Proof.
  intros kw1 kw2. do 2 eexists. split; [reflexivity|]. split; [reflexivity|].
  apply (section_accessory_frame kw1 kw2); [|reflexivity..].
  intros k H1 H2. simpl. repeat case_decide; simplify_eq; done.
Defined.
