(* ===== verification/Views.v ===== *)
(** * Example views ([src/views.py])

    [blocks_schema] merges a modal [view] shell with a [blocks]
    fragment; [first_view] and [second_view] add a submit (and close)
    button.  [view] is declared [def view( **kwargs)], so the
    positional call [modal.view('modal', 'My Test App')] of
    [blocks_schema] raises [TypeError] before [view] runs: Python binds
    no positional parameter to a function that has none.
    [call_kwonly] is that calling convention.

    [views_module] runs the module: its last statement
    [print(first_view())] writes [str] of the payload ([PyRepr]) or
    lets the exception escape.  The theorem states the [TypeError] of
    the three views and of the run. *)

From stdpp Require Import base list strings.
From S2P Require Import Prelude PyValue PyRepr TextObjects OptionItems Elements Blocks.

Open Scope string_scope.

(** [f( *args, **kwargs)] for [f] declared with [**kwargs] only. *)
Definition call_kwonly (f : dict -> pyres dict) (args : list value) (kwargs : dict) : pyres dict :=
  match args with
  | [] => f kwargs
  | _ :: _ => Err TypeError
  end.

(** [blocks_schema(blocks_list)] *)
Definition blocks_schema (blocks_list : value) : pyres dict :=
  v ← call_kwonly view [VStr "modal"; VStr "My Test App"] [];
  mret (dict_unpack [v; blocks blocks_list]).

(** [first_view()]: the block list is built first, then the merge
    calls [blocks_schema]. *)
Definition first_view : pyres dict :=
  b ← button [("text", VStr "My Button"); ("value", VStr "my_button");
              ("action_id", VStr "button_1")];
  let blocks_list := VList [VDict (actions (VList [VDict b]))] in
  schema ← blocks_schema blocks_list;
  mret (dict_unpack [schema; submit (VStr "Submit")]).

(** The [blocks_list] of [second_view()]: two plain-text objects. *)
Definition second_view_blocks : value :=
  VList [VDict (plain_text_object (VStr "first")); VDict (plain_text_object (VStr "second"))].

(** [second_view()] *)
Definition second_view : pyres dict :=
  schema ← blocks_schema second_view_blocks;
  mret (dict_unpack [schema; submit (VStr "Submit"); close (VStr "Quit")]).

(** ** Running the module *)

(** What running a script shows: the lines it wrote on stdout, and
    the exception that ended it, if one escaped. *)
Record run_outcome := Run {
  run_stdout : list string;
  run_uncaught : option exn
}.

(** The statement [print(e)]: [e] is evaluated first; [print] writes
    [str] of its value and a newline, and an exception of [e] escapes
    before anything is written. *)
Definition print_stmt (e : pyres value) : run_outcome :=
  match e with
  | Ok v => Run [py_str v] None
  | Err x => Run [] (Some x)
  end.

(** The body of [views.py]: [import modal] and the three [def]s only
    bind names; the last statement is [print(first_view())]. *)
Definition views_module : run_outcome := print_stmt (VDict <$> first_view).

(** ** Theorems *)

(** C6: [blocks_schema] raises [TypeError] whatever its argument,
    because of the positional call of [view]; hence [first_view] and
    [second_view] raise it too, and running [views.py] writes nothing
    on stdout and ends with that uncaught [TypeError], before [print]
    is called. *)
Theorem views_type_error :
  (forall blocks_list, blocks_schema blocks_list = Err TypeError) /\
  first_view = Err TypeError /\ second_view = Err TypeError /\
  views_module = Run [] (Some TypeError).
Proof. split_and!; reflexivity. Qed.
