(* ===== verification/Schema.v ===== *)
(** * The typed schema of the specification and the builder's refinement of it

    The specification (section 3) describes the payload as typed
    values: text objects, options, confirmation dialogs, elements of a
    closed set of kinds.  This file states that data model as Rocq
    types, renders each typed value to the JSON dict the platform
    expects ([render_*]), encodes it as the keyword arguments a caller
    passes to the builder ([kwargs_of_*]), and proves that the
    builder's constructors return the rendering of the value they are
    asked for: the builder refines the typed schema.  The one place
    where it does not, [conversations_select] with an initial
    conversation, is stated as its own theorem. *)

From stdpp Require Import base list strings.
From S2P Require Import Prelude PyValue TextObjects OptionItems Elements.

Open Scope string_scope.
Open Scope list_scope.

(** ** Text objects *)

Inductive text_kind := PlainText | Mrkdwn.

Record text_object := TextObject {
  to_kind : text_kind;
  to_text : string;
  to_emoji : option bool
}.

(** [plainText(s)] and [mrkdwn(s)] of the specification. *)
Definition plain (s : string) : text_object := TextObject PlainText s (Some true).
Definition mrkdwn (s : string) : text_object := TextObject Mrkdwn s None.

Definition render_text (t : text_object) : dict :=
  [("type", VStr (match to_kind t with PlainText => "plain_text" | Mrkdwn => "mrkdwn" end));
   ("text", VStr (to_text t))] ++
  match to_emoji t with Some b => [("emoji", VBool b)] | None => [] end.

(** ** Option lists: one shape or the other, never empty *)

Inductive option_list :=
| StrOptions (first : string) (rest : list string)
| RecordOptions (first : string * string * string) (rest : list (string * string * string)).

Definition render_str_option (s : string) : value :=
  VDict [("text", VDict (render_text (plain s))); ("value", VStr s)].

Definition render_record_option (r : string * string * string) : value :=
  let '(t, d, v) := r in
  VDict [("text", VDict (render_text (mrkdwn t)));
         ("description", VDict (render_text (mrkdwn d))); ("value", VStr v)].

Definition render_options (ol : option_list) : list value :=
  match ol with
  | StrOptions s rest => map render_str_option (s :: rest)
  | RecordOptions r rest => map render_record_option (r :: rest)
  end.

Definition record_arg (r : string * string * string) : value :=
  let '(t, d, v) := r in
  VDict [("text", VStr t); ("description", VStr d); ("value", VStr v)].

(** The [options] argument a caller passes for an option list. *)
Definition options_arg (ol : option_list) : value :=
  match ol with
  | StrOptions s rest => VList (map VStr (s :: rest))
  | RecordOptions r rest => VList (map record_arg (r :: rest))
  end.

(** ** Confirmation dialogs *)

Record confirm_dialog := ConfirmDialog {
  cd_title : string; cd_text : string; cd_confirm : string; cd_deny : string
}.

(** The dialog's text objects carry no [emoji] flag. *)
Definition render_confirm (c : confirm_dialog) : dict :=
  [("title", VDict (render_text (TextObject PlainText (cd_title c) None)));
   ("text", VDict (render_text (mrkdwn (cd_text c))));
   ("confirm", VDict (render_text (TextObject PlainText (cd_confirm c) None)));
   ("deny", VDict (render_text (TextObject PlainText (cd_deny c) None)))].

Definition confirm_kwargs (c : confirm_dialog) : dict :=
  [("confirm_title", VStr (cd_title c)); ("confirm_text", VStr (cd_text c));
   ("confirm_approve_text", VStr (cd_confirm c)); ("confirm_deny_text", VStr (cd_deny c))].

(** ** Elements *)

Inductive select_kind := Single | Multi.

Inductive element :=
| Button (text value action_id : string) (url : option string) (confirm : option confirm_dialog)
| PlainTextInput (action_id : string) (placeholder : option string) (multiline : bool)
| StaticSelect (k : select_kind) (options : option_list) (action_id : string)
    (placeholder : option string)
| ConversationsSelect (k : select_kind) (action_id : string) (placeholder initial : option string)
| UsersSelect (k : select_kind) (action_id : string) (placeholder initial : option string)
| ChannelsSelect (k : select_kind) (action_id : string) (placeholder initial : option string)
| Datepicker (action_id : string) (placeholder initial_date : option string)
| Timepicker (action_id : string) (placeholder initial_time : option string)
| Checkboxes (options : option_list) (action_id : string)
| RadioButtons (options : option_list) (action_id : string)
| Overflow (options : option_list) (action_id : string)
| Image (image_url alt_text : string) (title : option string).

Definition select_tag (k : select_kind) (base : string) : string :=
  match k with Single => base | Multi => String.append "multi_" base end.

(** The kind tag: the [type] key of the element and the discriminator
    the blocks dispatch on. *)
Definition element_tag (e : element) : string :=
  match e with
  | Button _ _ _ _ _ => "button"
  | PlainTextInput _ _ _ => "plain_text_input"
  | StaticSelect k _ _ _ => select_tag k "static_select"
  | ConversationsSelect k _ _ _ => select_tag k "conversations_select"
  | UsersSelect k _ _ _ => select_tag k "users_select"
  | ChannelsSelect k _ _ _ => select_tag k "channels_select"
  | Datepicker _ _ _ => "datepicker"
  | Timepicker _ _ _ => "timepicker"
  | Checkboxes _ _ => "checkboxes"
  | RadioButtons _ _ => "radio_buttons"
  | Overflow _ _ => "overflow"
  | Image _ _ _ => "image"
  end.

(** An optional field: the key with its value when given, nothing
    otherwise. *)
Definition opt_field (key : string) (f : string -> value) (o : option string) : dict :=
  match o with Some s => [(key, f s)] | None => [] end.

Definition placeholder_field (o : option string) : dict :=
  opt_field "placeholder" (fun s => VDict (render_text (plain s))) o.

(** The payload of an element, keys in the order the platform
    documents them for each kind. *)
Definition render_element (e : element) : dict :=
  match e with
  | Button text value action_id url confirm =>
      [("type", VStr "button"); ("text", VDict (render_text (plain text)));
       ("value", VStr value); ("action_id", VStr action_id)] ++
      opt_field "url" VStr url ++
      match confirm with Some c => [("confirm", VDict (render_confirm c))] | None => [] end
  | PlainTextInput action_id placeholder multiline =>
      [("type", VStr "plain_text_input"); ("action_id", VStr action_id)] ++
      placeholder_field placeholder ++ (if multiline then [("multiline", VBool true)] else [])
  | StaticSelect k options action_id placeholder =>
      [("type", VStr (select_tag k "static_select")); ("options", VList (render_options options));
       ("action_id", VStr action_id)] ++ placeholder_field placeholder
  | ConversationsSelect k action_id placeholder initial =>
      [("type", VStr (select_tag k "conversations_select")); ("action_id", VStr action_id)] ++
      placeholder_field placeholder ++ opt_field "initial_conversation" VStr initial
  | UsersSelect k action_id placeholder initial =>
      [("type", VStr (select_tag k "users_select")); ("action_id", VStr action_id)] ++
      placeholder_field placeholder ++ opt_field "initial_user" VStr initial
  | ChannelsSelect k action_id placeholder initial =>
      [("type", VStr (select_tag k "channels_select")); ("action_id", VStr action_id)] ++
      placeholder_field placeholder ++ opt_field "initial_channel" VStr initial
  | Datepicker action_id placeholder initial =>
      [("type", VStr "datepicker"); ("action_id", VStr action_id)] ++
      placeholder_field placeholder ++ opt_field "initial_date" VStr initial
  | Timepicker action_id placeholder initial =>
      [("type", VStr "timepicker"); ("action_id", VStr action_id)] ++
      placeholder_field placeholder ++ opt_field "initial_time" VStr initial
  | Checkboxes options action_id =>
      [("type", VStr "checkboxes"); ("options", VList (render_options options));
       ("action_id", VStr action_id)]
  | RadioButtons options action_id =>
      [("type", VStr "radio_buttons"); ("options", VList (render_options options));
       ("action_id", VStr action_id)]
  | Overflow options action_id =>
      [("type", VStr "overflow"); ("options", VList (render_options options));
       ("action_id", VStr action_id)]
  | Image image_url alt_text title =>
      [("type", VStr "image"); ("image_url", VStr image_url); ("alt_text", VStr alt_text)] ++
      opt_field "title" (fun s => VDict (render_text (plain s))) title
  end.

(** The keyword arguments that ask the builder for an element: the
    discriminator, the required arguments, and each optional argument
    only when it is given. *)
Definition kwargs_of_element (e : element) : dict :=
  ("type", VStr (element_tag e)) ::
  match e with
  | Button text value action_id url confirm =>
      [("text", VStr text); ("value", VStr value); ("action_id", VStr action_id)] ++
      opt_field "url" VStr url ++
      match confirm with Some c => confirm_kwargs c | None => [] end
  | PlainTextInput action_id placeholder multiline =>
      [("action_id", VStr action_id)] ++ opt_field "placeholder" VStr placeholder ++
      (if multiline then [("multiline", VBool true)] else [])
  | StaticSelect _ options action_id placeholder =>
      [("options", options_arg options); ("action_id", VStr action_id)] ++
      opt_field "placeholder" VStr placeholder
  | ConversationsSelect _ action_id placeholder initial =>
      [("action_id", VStr action_id)] ++ opt_field "placeholder" VStr placeholder ++
      opt_field "initial_convo" VStr initial
  | UsersSelect _ action_id placeholder initial =>
      [("action_id", VStr action_id)] ++ opt_field "placeholder" VStr placeholder ++
      opt_field "initial_user" VStr initial
  | ChannelsSelect _ action_id placeholder initial =>
      [("action_id", VStr action_id)] ++ opt_field "placeholder" VStr placeholder ++
      opt_field "initial_channel" VStr initial
  | Datepicker action_id placeholder initial =>
      [("action_id", VStr action_id)] ++ opt_field "placeholder" VStr placeholder ++
      opt_field "initial_date" VStr initial
  | Timepicker action_id placeholder initial =>
      [("action_id", VStr action_id)] ++ opt_field "placeholder" VStr placeholder ++
      opt_field "initial_time" VStr initial
  | Checkboxes options action_id | RadioButtons options action_id | Overflow options action_id =>
      [("options", options_arg options); ("action_id", VStr action_id)]
  | Image image_url alt_text title =>
      [("image_url", VStr image_url); ("alt_text", VStr alt_text)] ++
      opt_field "title" VStr title
  end.

(** The builder function for each kind. *)
Definition element_builder (e : element) : dict -> pyres dict :=
  match e with
  | Button _ _ _ _ _ => button
  | PlainTextInput _ _ _ => plain_text_input
  | StaticSelect _ _ _ _ => static_select
  | ConversationsSelect _ _ _ _ => conversations_select
  | UsersSelect _ _ _ _ => users_select
  | ChannelsSelect _ _ _ _ => channels_select
  | Datepicker _ _ _ => datepicker
  | Timepicker _ _ _ => timepicker
  | Checkboxes _ _ => checkboxes
  | RadioButtons _ _ => radio_buttons
  | Overflow _ _ => overflow
  | Image _ _ _ => image
  end.

(** ** Validity: what the builder needs to see an argument as given *)

Definition nonempty (s : string) : bool := negb (String.eqb s "").

Definition opt_nonempty (o : option string) : bool :=
  match o with Some s => nonempty s | None => true end.

Definition valid_confirm (c : confirm_dialog) : bool :=
  nonempty (cd_title c) && nonempty (cd_text c) && nonempty (cd_confirm c) && nonempty (cd_deny c).

(** Every optional string given is non-empty (an empty one is falsy in
    Python, hence dropped by the builder). *)
Definition valid_element (e : element) : bool :=
  match e with
  | Button _ _ _ url confirm =>
      opt_nonempty url && match confirm with Some c => valid_confirm c | None => true end
  | PlainTextInput _ p _ | StaticSelect _ _ _ p => opt_nonempty p
  | ConversationsSelect _ _ p i | UsersSelect _ _ p i | ChannelsSelect _ _ p i
  | Datepicker _ p i | Timepicker _ p i => opt_nonempty p && opt_nonempty i
  | Checkboxes _ _ | RadioButtons _ _ | Overflow _ _ => true
  | Image _ _ t => opt_nonempty t
  end.

(** Only [conversations_select] departs from the schema, when it is
    given an initial conversation. *)
Definition has_initial_conversation (e : element) : bool :=
  match e with ConversationsSelect _ _ _ (Some _) => true | _ => false end.

(** ** Refinement lemmas *)

Lemma render_plain (s : string) : render_text (plain s) = plain_text_object (VStr s).
Proof. reflexivity. Qed.

Lemma render_mrkdwn (s : string) : render_text (mrkdwn s) = mrkdwn_object (VStr s).
Proof. reflexivity. Qed.

Lemma str_options_refine (l : list string) :
  map plain_option (map VStr l) = map render_str_option l.
Proof. induction l as [|s l IH]; simpl; [done|]. by f_equal. Qed.

Lemma record_option_refine (r : string * string * string) :
  record_option (record_arg r) = Ok (render_record_option r).
Proof. destruct r as [[t d] v]. reflexivity. Qed.

Lemma record_options_refine (l : list (string * string * string)) :
  mapM record_option (map record_arg l) = Ok (map render_record_option l).
Proof.
  induction l as [|r l IH]; [done|]. cbn [mapM map].
  rewrite record_option_refine, bind_Ok, IH. reflexivity.
Qed.

Lemma options_refine (ol : option_list) : option_items (options_arg ol) = Ok (render_options ol).
Proof.
  destruct ol as [s rest | [[t d] v] rest]; unfold option_items; cbn -[mapM map].
  - change (VStr s :: map VStr rest) with (map VStr (s :: rest)). by rewrite str_options_refine.
  - change (VDict [("text", VStr t); ("description", VStr d); ("value", VStr v)] :: map record_arg rest)
      with (map record_arg ((t, d, v) :: rest)).
    apply record_options_refine.
Qed.

(** The keyword encoding of an element is a legal [**kwargs] dict: its
    keys are distinct. *)
Lemma kwargs_of_element_nodup (e : element) : NoDup (dict_keys (kwargs_of_element e)).
Proof.
  destruct e;
  repeat match goal with o : option _ |- _ => destruct o end;
  try match goal with b : bool |- _ => destruct b end;
  apply (bool_decide_unpack _); vm_compute; exact I.
Qed.

(** Run a builder on the keyword encoding of a typed element. *)
Ltac refine_element Hv :=
  repeat match goal with o : option _ |- _ => destruct o end;
  repeat match goal with k : select_kind |- _ => destruct k end;
  try match goal with b : bool |- _ => destruct b end;
  unfold valid_confirm, opt_nonempty, nonempty in Hv;
  repeat match goal with H : _ && _ = true |- _ => apply andb_true_iff in H as [? ?] end;
  unfold element_builder, kwargs_of_element, render_element; unfold_elements in *;
  unfold confirm_given, add_if, get_truthy, py_get, confirm_kwargs, plain_text;
  simpl; rewrite ?options_refine;
  repeat match goal with H : negb _ = true |- _ => rewrite H; clear H end;
  simpl.

(** Every kind of element, run on its keyword encoding. *)
Ltac element_cases :=
  intros e Hv Hc; destruct e; cbn [valid_element has_initial_conversation] in Hv, Hc;
  refine_element Hv; first [reflexivity | discriminate Hc].

(** C3: the builder refines the typed schema: for every typed element
    whose optional strings are non-empty (other than a conversations
    select with an initial conversation), the constructor of its kind,
    called with its keyword encoding, returns exactly its rendering. *)
Theorem element_refinement (e : element) :
  valid_element e = true -> has_initial_conversation e = false ->
  element_builder e (kwargs_of_element e) = Ok (render_element e).
Proof. revert e. element_cases. Qed.

Lemma element_refinement_witness :
  let e := StaticSelect Multi (StrOptions "red" ["green"]) "colour" (Some "Pick one") in
  valid_element e = true /\ has_initial_conversation e = false /\
  element_builder e (kwargs_of_element e) = Ok (render_element e).
Proof.
  intros e. split; [reflexivity|]. split; [reflexivity|].
  apply element_refinement; reflexivity.
Defined.

Lemma element_refines (e : element) :
  valid_element e = true -> has_initial_conversation e = false ->
  element_builder e (kwargs_of_element e) = Ok (render_element e).
Proof. revert e. element_cases. Qed.

(** C16: a conversations select with an initial conversation departs
    from the schema in exactly one key: the last key of its payload is
    [initial_user] instead of [initial_conversation]. *)
Theorem conversations_select_departure (k : select_kind) (a : string) (p : option string) (c : string) :
  opt_nonempty p = true -> nonempty c = true ->
  conversations_select (kwargs_of_element (ConversationsSelect k a p (Some c))) =
    Ok (removelast (render_element (ConversationsSelect k a p (Some c))) ++
        [("initial_user", VStr c)]) /\
  last (render_element (ConversationsSelect k a p (Some c))) = Some ("initial_conversation", VStr c).
Proof.
  intros Hp Hcn. pose proof (conj Hp Hcn) as Hv. apply andb_true_iff in Hv.
  change conversations_select with (element_builder (ConversationsSelect k a p (Some c))).
  refine_element Hv; split; reflexivity.
Qed.

Lemma conversations_select_departure_witness :
  opt_nonempty None = true /\ nonempty "C1" = true /\
  conversations_select (kwargs_of_element (ConversationsSelect Single "convo" None (Some "C1"))) =
    Ok (removelast (render_element (ConversationsSelect Single "convo" None (Some "C1"))) ++
        [("initial_user", VStr "C1")]).
Proof.
  split; [reflexivity|]. split; [reflexivity|].
  apply conversations_select_departure; reflexivity.
Defined.
