(* ===== verification/Decode.v ===== *)
(** * Reading the typed element back from keyword arguments

    [Schema] encodes a typed element as keyword arguments and proves
    that the constructor renders it.  This file goes the other way: for
    any keyword dict (extra keys, any order, falsy optional arguments
    of any type), [decode_element] reads the typed element that the
    constructor of a given kind is asked for, reading exactly what the
    code reads: required arguments with [kwargs[k]], optional ones with
    the truthiness test of [if kwargs.get(k):], the confirmation
    dialog only when all four of its arguments are truthy, and the
    option list by its shape.  It fails exactly when some argument read
    has a type the schema does not allow (a number where a str is
    expected, a mixed option list, ...).  The theorems: a decoded
    element is valid and of the requested kind, the constructor returns
    its rendering (so the builder's output depends on nothing else). *)

From stdpp Require Import base list strings.
From S2P Require Import Prelude PyValue TextObjects OptionItems Elements Schema.

Open Scope string_scope.
Open Scope list_scope.

(** ** Arguments *)

(** A required str argument, read with [kwargs[k]]. *)
Definition str_arg (kwargs : dict) (k : string) : option string :=
  match dict_lookup k kwargs with Some (VStr s) => Some s | _ => None end.

(** An optional str argument, read only when truthy: [Some None] when
    absent or falsy, [None] when truthy but not a str. *)
Definition opt_str_arg (kwargs : dict) (k : string) : option (option string) :=
  match get_truthy kwargs k with
  | None => Some None
  | Some (VStr s) => Some (Some s)
  | Some _ => None
  end.

(** A flag copied as is when truthy: only [True] is a flag of the
    schema. *)
Definition flag_arg (kwargs : dict) (k : string) : option bool :=
  match get_truthy kwargs k with
  | None => Some false
  | Some (VBool true) => Some true
  | Some _ => None
  end.

Definition str_of (v : value) : option string :=
  match v with VStr s => Some s | _ => None end.

(** An option record: a dict whose three keys are strs. *)
Definition record_of (v : value) : option (string * string * string) :=
  match v with
  | VDict d =>
      match dict_lookup "text" d, dict_lookup "description" d, dict_lookup "value" d with
      | Some (VStr t), Some (VStr x), Some (VStr y) => Some (t, x, y)
      | _, _, _ => None
      end
  | _ => None
  end.

(** The option list, of one shape throughout. *)
Definition options_of (v : value) : option option_list :=
  match v with
  | VList (VStr s :: rest) => StrOptions s <$> mapM str_of rest
  | VList (VDict d :: rest) =>
      r ← record_of (VDict d); rs ← mapM record_of rest; Some (RecordOptions r rs)
  | _ => None
  end.

(** The dialog: present exactly when all four arguments are truthy. *)
Definition confirm_arg (kwargs : dict) : option (option confirm_dialog) :=
  if confirm_given kwargs then
    t ← str_arg kwargs "confirm_title"; x ← str_arg kwargs "confirm_text";
    c ← str_arg kwargs "confirm_approve_text"; d ← str_arg kwargs "confirm_deny_text";
    Some (Some (ConfirmDialog t x c d))
  else Some None.

(** The single or multi variant named by a discriminator. *)
Definition kind_of (tag base : string) : option select_kind :=
  if String.eqb tag base then Some Single
  else if String.eqb tag (String.append "multi_" base) then Some Multi
  else None.

(** A select copies [kwargs['type']]: it must be the requested tag. *)
Definition select_arg (kwargs : dict) (tag base : string) : option select_kind :=
  k ← kind_of tag base;
  match dict_lookup "type" kwargs with
  | Some (VStr t) => if String.eqb t tag then Some k else None
  | _ => None
  end.

(** ** The decoder *)

Definition decode_element (tag : string) (kwargs : dict) : option element :=
  if String.eqb tag "button" then
    t ← str_arg kwargs "text"; v ← str_arg kwargs "value"; a ← str_arg kwargs "action_id";
    u ← opt_str_arg kwargs "url"; c ← confirm_arg kwargs; Some (Button t v a u c)
  else if String.eqb tag "plain_text_input" then
    a ← str_arg kwargs "action_id"; p ← opt_str_arg kwargs "placeholder";
    m ← flag_arg kwargs "multiline"; Some (PlainTextInput a p m)
  else if String.eqb tag "datepicker" then
    a ← str_arg kwargs "action_id"; p ← opt_str_arg kwargs "placeholder";
    i ← opt_str_arg kwargs "initial_date"; Some (Datepicker a p i)
  else if String.eqb tag "timepicker" then
    a ← str_arg kwargs "action_id"; p ← opt_str_arg kwargs "placeholder";
    i ← opt_str_arg kwargs "initial_time"; Some (Timepicker a p i)
  else if String.eqb tag "checkboxes" then
    o ← dict_lookup "options" kwargs ≫= options_of; a ← str_arg kwargs "action_id";
    Some (Checkboxes o a)
  else if String.eqb tag "radio_buttons" then
    o ← dict_lookup "options" kwargs ≫= options_of; a ← str_arg kwargs "action_id";
    Some (RadioButtons o a)
  else if String.eqb tag "overflow" then
    o ← dict_lookup "options" kwargs ≫= options_of; a ← str_arg kwargs "action_id";
    Some (Overflow o a)
  else if String.eqb tag "image" then
    u ← str_arg kwargs "image_url"; t ← str_arg kwargs "alt_text";
    ti ← opt_str_arg kwargs "title"; Some (Image u t ti)
  else
    match kind_of tag "static_select", kind_of tag "conversations_select",
          kind_of tag "users_select", kind_of tag "channels_select" with
    | Some _, _, _, _ =>
        k ← select_arg kwargs tag "static_select";
        o ← dict_lookup "options" kwargs ≫= options_of; a ← str_arg kwargs "action_id";
        p ← opt_str_arg kwargs "placeholder"; Some (StaticSelect k o a p)
    | _, Some _, _, _ =>
        k ← select_arg kwargs tag "conversations_select"; a ← str_arg kwargs "action_id";
        p ← opt_str_arg kwargs "placeholder"; i ← opt_str_arg kwargs "initial_convo";
        Some (ConversationsSelect k a p i)
    | _, _, Some _, _ =>
        k ← select_arg kwargs tag "users_select"; a ← str_arg kwargs "action_id";
        p ← opt_str_arg kwargs "placeholder"; i ← opt_str_arg kwargs "initial_user";
        Some (UsersSelect k a p i)
    | _, _, _, Some _ =>
        k ← select_arg kwargs tag "channels_select"; a ← str_arg kwargs "action_id";
        p ← opt_str_arg kwargs "placeholder"; i ← opt_str_arg kwargs "initial_channel";
        Some (ChannelsSelect k a p i)
    | None, None, None, None => None
    end.

(** ** Lemmas on the arguments *)

(** Invert the option binds of a successful decoding. *)
Ltac opt_inv :=
  repeat match goal with
  | H : mbind _ _ = Some _ |- _ => apply bind_Some in H as (? & ? & H)
  | H : fmap _ _ = Some _ |- _ => apply fmap_Some in H as (? & ? & H)
  | H : mret _ = Some _ |- _ => cbv [mret option_ret] in H
  | H : Some _ = Some _ |- _ => injection H as H
  end.

Lemma str_arg_kw (kwargs : dict) (k s : string) :
  str_arg kwargs k = Some s -> kw kwargs k = Ok (VStr s).
Proof.
  unfold str_arg, kw, getitem. destruct (dict_lookup k kwargs) as [[]|]; congruence.
Qed.

Lemma opt_str_add_if (kwargs : dict) (k : string) (o : option string) out f schema :
  opt_str_arg kwargs k = Some o ->
  add_if kwargs k out f schema =
    match o with Some s => dict_merge schema [(out, f (VStr s))] | None => schema end.
Proof.
  unfold opt_str_arg, add_if. destruct (get_truthy kwargs k) as [[]|]; intros; by simplify_eq.
Qed.

Lemma flag_add_if (kwargs : dict) (k : string) (b : bool) out schema :
  flag_arg kwargs k = Some b ->
  add_if kwargs k out id schema = if b then dict_merge schema [(out, VBool true)] else schema.
Proof.
  unfold flag_arg, add_if. destruct (get_truthy kwargs k) as [[| [] | | | |]|]; intros; by simplify_eq.
Qed.

Lemma opt_str_nonempty (kwargs : dict) (k : string) (o : option string) :
  opt_str_arg kwargs k = Some o -> opt_nonempty o = true.
Proof.
  unfold opt_str_arg. destruct (get_truthy kwargs k) as [v|] eqn:Hg; [|by intros [= <-]].
  apply get_truthy_Some in Hg as [_ Ht].
  destruct v as [| | | s | |]; try discriminate. intros [= <-]. simpl in *.
  unfold nonempty. by destruct (String.eqb s "").
Qed.

Lemma mapM_str_of (l : list value) (ss : list string) :
  mapM str_of l = Some ss -> l = map VStr ss.
Proof.
  revert ss. induction l as [|v l IH]; intros ss H; simpl in H; opt_inv; subst; [done|].
  destruct v; simplify_eq/=. f_equal. auto.
Qed.

Lemma record_of_option (v : value) (r : string * string * string) :
  record_of v = Some r -> record_option v = Ok (render_record_option r).
Proof.
  destruct v as [| | | | | d]; try discriminate. unfold record_of, record_option, getitem.
  destruct (dict_lookup "text" d) as [[]|], (dict_lookup "description" d) as [[]|],
    (dict_lookup "value" d) as [[]|]; intros; simplify_eq; reflexivity.
Qed.

Lemma mapM_record_of (l : list value) (rs : list (string * string * string)) :
  mapM record_of l = Some rs -> mapM record_option l = Ok (map render_record_option rs).
Proof.
  revert rs. induction l as [|v l IH]; intros rs H; simpl in H; [by opt_inv; subst|].
  destruct (record_of v) as [r|] eqn:Hr; [|done]. simpl in H.
  destruct (mapM record_of l) as [rs'|] eqn:Hl; [|done]. simpl in H. opt_inv. subst.
  cbn [mapM map]. rewrite (record_of_option _ _ Hr), bind_Ok, (IH _ eq_refl). reflexivity.
Qed.

Lemma options_of_items (v : value) (ol : option_list) :
  options_of v = Some ol -> option_items v = Ok (render_options ol).
Proof.
  destruct v as [| | | | [|x rest] |]; try discriminate.
  destruct x as [| | | s | | d]; try discriminate; intros H; cbn -[record_of mapM] in H.
  - destruct (mapM str_of rest) as [ss|] eqn:Hm; simpl in H; [|inversion H]. injection H as <-.
    unfold option_items. cbn -[mapM map]. rewrite (mapM_str_of _ _ Hm).
    change (VStr s :: map VStr ss) with (map VStr (s :: ss)). by rewrite str_options_refine.
  - destruct (record_of (VDict d)) as [r|] eqn:Hr; simpl in H; [|inversion H].
    destruct (mapM record_of rest) as [rs|] eqn:Hm; simpl in H; [|inversion H]. opt_inv. subst.
    unfold option_items. cbn -[mapM record_of].
    change (render_options (RecordOptions r rs)) with (map render_record_option (r :: rs)).
    apply (mapM_record_of _ (r :: rs)). cbn -[record_of]. by rewrite Hr, Hm.
Qed.

Lemma str_arg_truthy (kwargs : dict) (k s : string) :
  str_arg kwargs k = Some s -> truthy (py_get kwargs k) = nonempty s.
Proof.
  unfold str_arg, py_get. destruct (dict_lookup k kwargs) as [[]|]; by intros [= ->].
Qed.

(** The [if] of [button] on a decoded dialog: the dialog's rendering
    is merged in when there is one (the merge of one key is the
    assignment [dict_set]). *)
Lemma confirm_arg_button (kwargs : dict) (c : option confirm_dialog) (schema : dict) :
  confirm_arg kwargs = Some c ->
  (if confirm_given kwargs then
     c' ← confirm kwargs; mret (dict_set "confirm" (VDict c') schema)
   else mret schema) =
  Ok (match c with Some d => dict_set "confirm" (VDict (render_confirm d)) schema
                 | None => schema end).
Proof.
  unfold confirm_arg. destruct (confirm_given kwargs); intros H; opt_inv; subst; [|done].
  unfold confirm. repeat match goal with Hs : str_arg _ _ = Some _ |- _ =>
    rewrite (str_arg_kw _ _ _ Hs); clear Hs end.
  reflexivity.
Qed.

Lemma confirm_arg_valid (kwargs : dict) (d : confirm_dialog) :
  confirm_arg kwargs = Some (Some d) -> valid_confirm d = true.
Proof.
  unfold confirm_arg. destruct (confirm_given kwargs) eqn:Hc; intros H; opt_inv; subst; [|done].
  unfold confirm_given in Hc. unfold valid_confirm; simpl.
  repeat match goal with Hs : str_arg _ _ = Some _ |- _ =>
    rewrite (str_arg_truthy _ _ _ Hs) in Hc; clear Hs end.
  exact Hc.
Qed.

Lemma kind_of_tag (tag base : string) (k : select_kind) :
  kind_of tag base = Some k -> tag = select_tag k base.
Proof.
  unfold kind_of. destruct (String.eqb_spec tag base); [by intros [= <-]|].
  destruct (String.eqb_spec tag (String.append "multi_" base)); by intros [= <-].
Qed.

Lemma select_arg_type (kwargs : dict) (tag base : string) (k : select_kind) :
  select_arg kwargs tag base = Some k ->
  tag = select_tag k base /\ kw kwargs "type" = Ok (VStr (select_tag k base)).
Proof.
  unfold select_arg. destruct (kind_of tag base) as [k'|] eqn:Hk; [|done]. simpl.
  pose proof (kind_of_tag _ _ _ Hk) as ->.
  unfold kw, getitem. destruct (dict_lookup "type" kwargs) as [[| | | t | |]|]; try done.
  destruct (String.eqb_spec t (select_tag k' base)); intros; simplify_eq; done.
Qed.

(** ** Soundness of the decoder *)

(** Replace every read of the constructor by what the decoder found. *)
Ltac run_decoded :=
  opt_inv; subst; cbn [element_builder]; unfold_elements in *;
  repeat match goal with
  | Hs : str_arg _ _ = Some _ |- _ => rewrite (str_arg_kw _ _ _ Hs); clear Hs
  | Hs : select_arg _ _ _ = Some _ |- _ =>
      let Hty := fresh in destruct (select_arg_type _ _ _ _ Hs) as [? Hty]; rewrite Hty; clear Hs Hty
  | Hs : dict_lookup _ _ = Some _ |- _ => rewrite (kw_lookup _ _ _ Hs); clear Hs
  end;
  simpl;
  repeat match goal with
  | Hs : options_of _ = Some _ |- _ => rewrite (options_of_items _ _ Hs); clear Hs; simpl
  | Hs : opt_str_arg _ _ = Some _ |- _ => rewrite (opt_str_add_if _ _ _ _ _ _ Hs); clear Hs
  | Hs : flag_arg _ _ = Some _ |- _ => rewrite (flag_add_if _ _ _ _ _ Hs); clear Hs
  end;
  repeat match goal with
  | Hs : confirm_arg _ = Some _ |- _ => rewrite (confirm_arg_button _ _ _ Hs); clear Hs
  end;
  repeat match goal with o : option _ |- _ => destruct o end;
  repeat match goal with k : select_kind |- _ => destruct k end;
  repeat match goal with b : bool |- _ => destruct b end;
  repeat match goal with ol : option_list |- _ => destruct ol end.

(** Every kind of element, run on the arguments it was decoded from. *)
Ltac decode_cases :=
  intros tag kwargs el H Hc; unfold decode_element in H;
  repeat match type of H with context [String.eqb tag ?s] => destruct (String.eqb tag s) end;
  try (destruct (kind_of tag "static_select"), (kind_of tag "conversations_select"),
        (kind_of tag "users_select"), (kind_of tag "channels_select"); try discriminate H);
  run_decoded; first [reflexivity | discriminate Hc].


Lemma decode_valid (tag : string) (kwargs : dict) (el : element) :
  decode_element tag kwargs = Some el -> valid_element el = true /\ element_tag el = tag.
Proof.
  unfold decode_element. intros H.
  repeat match type of H with context [String.eqb tag ?s] =>
    destruct (String.eqb_spec tag s) as [->|] end;
  try (destruct (kind_of tag "static_select"), (kind_of tag "conversations_select"),
        (kind_of tag "users_select"), (kind_of tag "channels_select"); try discriminate H);
  opt_inv; subst;
  repeat match goal with
  | Hs : select_arg _ _ _ = Some _ |- _ => destruct (select_arg_type _ _ _ _ Hs) as [-> _]; clear Hs
  | Hs : opt_str_arg _ _ = Some _ |- _ => apply opt_str_nonempty in Hs
  end;
  cbn [valid_element element_tag]; rewrite ?andb_true_iff; (split; [|done]);
  repeat match goal with
  | Hs : confirm_arg _ = Some (Some _) |- _ => apply confirm_arg_valid in Hs
  | o : option confirm_dialog |- _ => destruct o
  end; rewrite ?andb_true_iff; auto.
Qed.

(** ** Theorems *)

(** C11: the builder's output is determined by the typed element it is
    asked for: for any keyword dict (extra keys, any order, falsy
    optional arguments of any type), when the arguments a constructor
    of the given kind reads decode to a typed element, that element is
    valid and of that kind, and (unless it is a conversations select
    with an initial conversation) the constructor returns exactly its
    rendering. *)
Theorem element_decode_sound (tag : string) (kwargs : dict) (el : element) :
  decode_element tag kwargs = Some el ->
  valid_element el = true /\ element_tag el = tag /\
  (has_initial_conversation el = false -> element_builder el kwargs = Ok (render_element el)).
Proof.
  intros H. destruct (decode_valid _ _ _ H) as [Hv Ht]. split_and!; [done | done |].
  clear Hv Ht. revert tag kwargs el H. decode_cases.
Qed.

Lemma element_decode_sound_witness :
  let kwargs := [("label", VStr "When"); ("type", VStr "datepicker"); ("placeholder", VStr "");
                 ("action_id", VStr "d1"); ("initial_date", VStr "2024-01-31")] in
  decode_element "datepicker" kwargs = Some (Datepicker "d1" None (Some "2024-01-31")) /\
  (valid_element (Datepicker "d1" None (Some "2024-01-31")) = true /\
   element_tag (Datepicker "d1" None (Some "2024-01-31")) = "datepicker" /\
   (has_initial_conversation (Datepicker "d1" None (Some "2024-01-31")) = false ->
    element_builder (Datepicker "d1" None (Some "2024-01-31")) kwargs =
      Ok (render_element (Datepicker "d1" None (Some "2024-01-31"))))).
Proof.
  intros kwargs. split; [reflexivity|]. apply element_decode_sound. reflexivity.
Defined.

Lemma decode_builds (tag : string) (kwargs : dict) (el : element) :
  decode_element tag kwargs = Some el -> has_initial_conversation el = false ->
  element_builder el kwargs = Ok (render_element el).
Proof. revert tag kwargs el. decode_cases. Qed.
