(* ===== verification/ViewSchema.v ===== *)
(** * Typed blocks and views, and the builder's refinement of them

    Continues [Schema] with the layout level of the specification:
    blocks (header, divider, section with an optional accessory, the
    [fields] form of a section, actions, input) and views.  Each typed
    block is rendered to its payload and encoded as the call of the
    builder that produces it ([block_build]); a view is assembled the
    way the specification describes it (and [views.py] does it): the
    union of the [view], [blocks], [submit] and [close] fragments.
    The last theorem shows that the block list of [second_view] is
    not one of a typed view. *)

From stdpp Require Import base list strings.
From S2P Require Import Prelude PyValue TextObjects OptionItems Elements Blocks Views Schema.

Open Scope string_scope.
Open Scope list_scope.

(** ** Blocks *)

Inductive block :=
| HeaderBlock (text : string)
| DividerBlock
| SectionBlock (text : string) (accessory : option element)
| FieldsSection (fields : list string)
| ActionsBlock (elements : list element)
| InputBlock (label : string) (el : element) (optional : bool).

(** The element kinds a section accepts as accessory, and the ones an
    input block accepts, as the specification lists them (plus the
    user selects, which [input_type] also accepts). *)
Definition section_kind_ok (e : element) : bool :=
  match e with
  | Button _ _ _ _ _ | Image _ _ _ | Datepicker _ _ _ | Timepicker _ _ _ | StaticSelect _ _ _ _
  | UsersSelect _ _ _ _ | Checkboxes _ _ | RadioButtons _ _ | Overflow _ _ => true
  | _ => false
  end.

Definition input_kind_ok (e : element) : bool :=
  match e with
  | PlainTextInput _ _ _ | Datepicker _ _ _ | Timepicker _ _ _ | StaticSelect _ _ _ _
  | ConversationsSelect _ _ _ _ | ChannelsSelect _ _ _ _ | UsersSelect _ _ _ _
  | Checkboxes _ _ | RadioButtons _ _ => true
  | _ => false
  end.

Definition render_block (b : block) : dict :=
  match b with
  | HeaderBlock text => [("type", VStr "header"); ("text", VDict (render_text (plain text)))]
  | DividerBlock => [("type", VStr "divider")]
  | SectionBlock text accessory =>
      [("type", VStr "section"); ("text", VDict (render_text (mrkdwn text)))] ++
      match accessory with Some e => [("accessory", VDict (render_element e))] | None => [] end
  | FieldsSection fields =>
      [("type", VStr "section");
       ("fields", VList (map (fun f => VDict (render_text (mrkdwn f))) fields))]
  | ActionsBlock elements =>
      [("type", VStr "actions"); ("elements", VList (map (fun e => VDict (render_element e)) elements))]
  | InputBlock label el optional =>
      [("type", VStr "input"); ("element", VDict (render_element el))] ++
      (if optional then [("optional", VBool true)] else []) ++
      [("label", VDict (render_text (plain label)))]
  end.

(** Keyword arguments of [section] and [input_type]: the block's own
    arguments followed by those of its element.  The [fields] form must
    still pass a [section_text], which it ignores. *)
Definition section_kwargs (text : string) (accessory : option element) : dict :=
  ("section_text", VStr text) :: match accessory with Some e => kwargs_of_element e | None => [] end.

Definition fields_kwargs (fields : list string) : dict :=
  [("section_text", VNone); ("type", VStr "fields"); ("fields_list", VList (map VStr fields))].

Definition input_kwargs (label : string) (el : element) (optional : bool) : dict :=
  ("label", VStr label) :: (if optional then [("optional", VBool true)] else []) ++
  kwargs_of_element el.

(** The builder call that produces each kind of block. *)
Definition block_build (b : block) : pyres dict :=
  match b with
  | HeaderBlock text => mret (header (VStr text))
  | DividerBlock => mret divider
  | SectionBlock text accessory => section (section_kwargs text accessory)
  | FieldsSection fields => section (fields_kwargs fields)
  | ActionsBlock elements =>
      els ← mapM (fun e => element_builder e (kwargs_of_element e)) elements;
      mret (actions (VList (map VDict els)))
  | InputBlock label el optional => input_type (input_kwargs label el optional)
  end.

Definition element_ok (e : element) : bool :=
  valid_element e && negb (has_initial_conversation e).

Definition valid_block (b : block) : bool :=
  match b with
  | HeaderBlock _ | DividerBlock | FieldsSection _ | SectionBlock _ None => true
  | SectionBlock _ (Some e) => element_ok e && section_kind_ok e
  | ActionsBlock elements => forallb element_ok elements
  | InputBlock _ e _ => element_ok e && input_kind_ok e
  end.

(** ** Views *)

Inductive view_kind := Modal | Home.

Record view_t := View {
  v_kind : view_kind;
  v_title : string;
  v_blocks : list block;
  v_submit : option string;
  v_close : option string
}.

Definition view_kind_str (k : view_kind) : string :=
  match k with Modal => "modal" | Home => "home" end.

Definition render_view (v : view_t) : dict :=
  [("type", VStr (view_kind_str (v_kind v))); ("title", VDict (render_text (plain (v_title v))));
   ("blocks", VList (map (fun b => VDict (render_block b)) (v_blocks v)))] ++
  opt_field "submit" (fun s => VDict (render_text (plain s))) (v_submit v) ++
  opt_field "close" (fun s => VDict (render_text (plain s))) (v_close v).

(** A view assembled from the builder's fragments, as in [views.py]
    but with [view] called by keywords:
    [{**view(type=..., text=...), **blocks([...]), **submit(...), **close(...)}]. *)
Definition assemble_view (v : view_t) : pyres dict :=
  shell ← view [("type", VStr (view_kind_str (v_kind v))); ("text", VStr (v_title v))];
  bl ← mapM block_build (v_blocks v);
  mret (dict_unpack
    ([shell; blocks (VList (map VDict bl))] ++
     match v_submit v with Some s => [submit (VStr s)] | None => [] end ++
     match v_close v with Some s => [close (VStr s)] | None => [] end)).

(** ** Refinement of blocks and views *)

Lemma element_builds_ok (l : list element) :
  forallb element_ok l = true ->
  mapM (fun e => element_builder e (kwargs_of_element e)) l = Ok (map render_element l).
Proof.
  induction l as [|e l IH]; [done|]. simpl. intros [He Hl]%andb_true_iff.
  apply andb_true_iff in He as [Hv Hc]. apply negb_true_iff in Hc.
  rewrite element_refines by done. simpl. by rewrite IH.
Qed.

(** Run [section] or [input_type] on the keyword encoding of a typed
    block whose element is [e]. *)
Ltac refine_block Hv :=
  unfold element_ok in Hv; cbn [valid_element has_initial_conversation negb] in Hv;
  try (rewrite section_eq_ref; unfold section_ref);
  try (rewrite input_type_eq_ref; unfold input_type_ref);
  unfold attach, section_accessories, input_elements;
  refine_element Hv.

Lemma section_block_refines (t : string) (e : element) :
  valid_block (SectionBlock t (Some e)) = true ->
  block_build (SectionBlock t (Some e)) = Ok (render_block (SectionBlock t (Some e))).
Proof.
  simpl. intros [Hv Hk]%andb_true_iff. unfold section_kwargs.
  destruct e; try discriminate Hk; refine_block Hv; reflexivity.
Qed.

Lemma fields_block_refines (fs : list string) :
  block_build (FieldsSection fs) = Ok (render_block (FieldsSection fs)).
Proof.
  simpl. rewrite section_eq_ref. unfold section_ref, section_fields_form, fields_kwargs. simpl.
  by rewrite map_map.
Qed.

Lemma input_block_refines (l : string) (e : element) (opt : bool) :
  valid_block (InputBlock l e opt) = true ->
  block_build (InputBlock l e opt) = Ok (render_block (InputBlock l e opt)).
Proof.
  simpl. intros [Hv Hk]%andb_true_iff. unfold input_kwargs.
  destruct e; try discriminate Hk; destruct opt; refine_block Hv;
    first [reflexivity | exfalso; match goal with H : _ = true |- _ => discriminate H end].
Qed.

(** The case analysis on the kind of block: [header] and [divider]
    are run directly, the other kinds by the lemmas above. *)
Ltac block_cases :=
  intros b; destruct b as [t | | t [e|] | fs | els | l e opt]; intros Hv;
  [ reflexivity | reflexivity | by apply section_block_refines
  | simpl; by rewrite section_eq_ref | apply fields_block_refines
  | simpl; rewrite element_builds_ok by done; simpl; by rewrite map_map
  | by apply input_block_refines ].

(** C9: the layout constructors refine the typed blocks: every valid
    typed block (its element of a kind the block accepts, with no
    initial conversation) is built, by [header], [divider], [section],
    [actions] or [input_type] called with its keyword encoding, into
    exactly its rendering. *)
Theorem block_refinement (b : block) : valid_block b = true -> block_build b = Ok (render_block b).
Proof. revert b. block_cases. Qed.

Lemma block_refinement_witness :
  let b := InputBlock "Name" (PlainTextInput "name_1" (Some "Your name") false) true in
  valid_block b = true /\ block_build b = Ok (render_block b).
Proof. intros b. split; [reflexivity|]. apply block_refinement. reflexivity. Defined.

Lemma block_refines (b : block) : valid_block b = true -> block_build b = Ok (render_block b).
Proof. revert b. block_cases. Qed.

Lemma blocks_build_ok (l : list block) :
  forallb valid_block l = true -> mapM block_build l = Ok (map render_block l).
Proof.
  induction l as [|b l IH]; [done|]. simpl. intros [Hb Hl]%andb_true_iff.
  rewrite block_refines by done. simpl. by rewrite IH.
Qed.

(** C10: a whole view assembled from the builder's fragments, with
    [view] called by keywords, is exactly the rendering of the typed
    view: [type], [title], [blocks], then [submit] and [close] when
    given, with no key overwritten by the merges. *)
Theorem view_refinement (v : view_t) :
  forallb valid_block (v_blocks v) = true -> assemble_view v = Ok (render_view v).
Proof.
  intros Hv. destruct v as [k t bs sub cl]; simpl in Hv. unfold assemble_view. simpl.
  rewrite blocks_build_ok by done. simpl. rewrite map_map.
  by destruct sub, cl.
Qed.

Lemma view_refinement_witness :
  let v := View Modal "My Test App"
             [ActionsBlock [Button "My Button" "my_button" "button_1" None None]]
             (Some "Submit") None in
  forallb valid_block (v_blocks v) = true /\ assemble_view v = Ok (render_view v).
Proof. intros v. split; [reflexivity|]. apply view_refinement. reflexivity. Defined.

(** C17: the block list of [second_view] is not the block list of any
    view of the schema: its two items are plain-text objects, which are
    not blocks (every block's [type] is [header], [divider],
    [section], [actions] or [input]). *)
Theorem second_view_blocks_invalid (v : view_t) :
  dict_lookup "blocks" (render_view v) <> Some second_view_blocks.
Proof.
  destruct v as [k t bs sub cl]. unfold second_view_blocks. simpl.
  intros [= Hbs]. destruct bs as [|b bs]; simpl in Hbs; [discriminate|].
  injection Hbs as Hb _. destruct b; simpl in Hb; try destruct accessory; try destruct optional;
    discriminate Hb.
Qed.
