(* ===== verification/BlockDecode.v ===== *)
(** * Reading typed blocks back from the keyword arguments of a block

    The block-level counterpart of [Decode]: [decode_section] and
    [decode_input] read, from any keyword dict, the typed block that
    [section] and [input_type] are asked for, dispatching on the
    discriminator the way the code does (through the tables of
    [Blocks]) and decoding the element with [decode_element].  An
    unrecognised discriminator gives a section without accessory, as
    the code does silently; an input block without a recognised
    element has no typed counterpart.  The theorems: whatever the
    keyword dict, a decoded block is rendered exactly by the code. *)

From stdpp Require Import base list strings.
From S2P Require Import Prelude PyValue TextObjects OptionItems Elements Blocks Schema Decode ViewSchema.

Open Scope string_scope.
Open Scope list_scope.

(** [fields_list]: a list of strs. *)
Definition strs_of (v : value) : option (list string) :=
  match v with VList l => mapM str_of l | _ => None end.

Definition decode_section (kwargs : dict) : option block :=
  text ← str_arg kwargs "section_text";
  match get_truthy kwargs "type" with
  | Some (VStr t) =>
      match table_find t section_accessories with
      | Some _ => el ← decode_element t kwargs; Some (SectionBlock text (Some el))
      | None =>
          if String.eqb t "fields" then
            fs ← dict_lookup "fields_list" kwargs ≫= strs_of; Some (FieldsSection fs)
          else Some (SectionBlock text None)
      end
  | _ => Some (SectionBlock text None)
  end.

Definition decode_input (kwargs : dict) : option block :=
  label ← str_arg kwargs "label";
  t ← str_arg kwargs "type";
  match table_find t input_elements with
  | Some _ =>
      el ← decode_element t kwargs; opt ← flag_arg kwargs "optional";
      Some (InputBlock label el opt)
  | None => None
  end.

(** ** The tables and the typed kinds *)

(** The constructor a table gives for the tag of an element is the
    element's own, and its kind is one the block accepts. *)
Lemma section_table_kind (t : string) build (el : element) :
  table_find t section_accessories = Some build -> element_tag el = t ->
  build = element_builder el /\ section_kind_ok el = true /\ has_initial_conversation el = false.
Proof.
  intros Hf <-. destruct el; try match goal with k : select_kind |- _ => destruct k end;
  simpl in Hf; simplify_eq; done.
Qed.

Lemma input_table_kind (t : string) build (el : element) :
  table_find t input_elements = Some build -> element_tag el = t ->
  build = element_builder el /\ input_kind_ok el = true.
Proof.
  intros Hf <-. destruct el; try match goal with k : select_kind |- _ => destruct k end;
  simpl in Hf; simplify_eq; done.
Qed.

Lemma strs_of_iter (v : value) (fs : list string) :
  strs_of v = Some fs -> py_iter v = Ok (map VStr fs).
Proof.
  destruct v as [| | | | l |]; try discriminate. simpl. intros H.
  by rewrite (mapM_str_of _ _ H).
Qed.

(** ** Soundness of the block decoders *)

Lemma decode_section_sound (kwargs : dict) (b : block) :
  decode_section kwargs = Some b -> valid_block b = true /\ section kwargs = Ok (render_block b).
Proof.
  unfold decode_section. rewrite section_eq_ref. unfold section_ref.
  destruct (str_arg kwargs "section_text") as [text|] eqn:Htext; [|done].
  rewrite (str_arg_kw _ _ _ Htext). cbn -[table_find decode_element get_truthy section_fields_form].
  destruct (get_truthy kwargs "type") as [[| | | t | |]|]; try (intros [= <-]; done).
  destruct (table_find t section_accessories) as [build|] eqn:Hf.
  - destruct (decode_element t kwargs) as [el|] eqn:Hd; cbn -[decode_element]; [|intros [=]]. intros Hb; opt_inv; subst.
    destruct (decode_valid _ _ _ Hd) as [Hv Ht].
    destruct (section_table_kind _ _ _ Hf Ht) as (-> & Hk & Hc).
    unfold attach. rewrite (decode_builds _ _ _ Hd Hc). simpl.
    unfold element_ok. by rewrite Hv, Hc, Hk.
  - destruct (String.eqb t "fields"); [|intros [= <-]; done].
    destruct (dict_lookup "fields_list" kwargs) as [v|] eqn:Hl; simpl; [|intros [=]].
    destruct (strs_of v) as [fs|] eqn:Hs; simpl; [|intros [=]]. intros Hb; opt_inv; subst.
    unfold section_fields_form. rewrite (kw_lookup _ _ _ Hl). simpl.
    rewrite (strs_of_iter _ _ Hs). simpl. by rewrite map_map.
Qed.

Lemma decode_input_sound (kwargs : dict) (b : block) :
  decode_input kwargs = Some b -> valid_block b = true -> input_type kwargs = Ok (render_block b).
Proof.
  unfold decode_input. rewrite input_type_eq_ref. unfold input_type_ref.
  destruct (str_arg kwargs "label") as [label|] eqn:Hl; [|intros [=]].
  destruct (str_arg kwargs "type") as [t|] eqn:Ht; [|intros [=]].
  rewrite (str_arg_kw _ _ _ Ht). cbn -[table_find decode_element add_if kw].
  destruct (table_find t input_elements) as [build|] eqn:Hf; [|intros [=]].
  destruct (decode_element t kwargs) as [el|] eqn:Hd; cbn -[add_if kw]; [|intros [=]].
  destruct (flag_arg kwargs "optional") as [opt|] eqn:Ho; cbn -[add_if kw]; [|intros [=]].
  intros Hb Hvb. opt_inv. subst.
  destruct (decode_valid _ _ _ Hd) as [_ Htag].
  destruct (input_table_kind _ _ _ Hf Htag) as [-> _].
  cbn [valid_block element_ok] in Hvb. apply andb_true_iff in Hvb as [Hvb _].
  apply andb_true_iff in Hvb as [_ Hc]. apply negb_true_iff in Hc.
  unfold attach. rewrite (decode_builds _ _ _ Hd Hc). cbn -[add_if kw].
  rewrite (flag_add_if _ _ _ _ _ Ho), (str_arg_kw _ _ _ Hl). by destruct opt.
Qed.

(** ** Theorems *)

(** C14: every section built from a keyword dict that decodes to a
    typed block is that block's rendering, and the block is valid:
    the section text, an accessory of a kind sections accept (decoded
    from the same keyword dict, whatever else it holds), the [fields]
    form, or no accessory for a discriminator the code does not
    recognise. *)
Theorem section_decode_sound (kwargs : dict) (b : block) :
  decode_section kwargs = Some b -> valid_block b = true /\ section kwargs = Ok (render_block b).
Proof. apply decode_section_sound. Qed.

Lemma section_decode_sound_witness :
  let kwargs := [("section_text", VStr "Pick a colour"); ("type", VStr "static_select");
                 ("options", VList [VStr "red"; VStr "green"]); ("action_id", VStr "colour");
                 ("placeholder", VNone); ("label", VStr "unused")] in
  decode_section kwargs =
    Some (SectionBlock "Pick a colour" (Some (StaticSelect Single (StrOptions "red" ["green"]) "colour" None))) /\
  valid_block (SectionBlock "Pick a colour"
                 (Some (StaticSelect Single (StrOptions "red" ["green"]) "colour" None))) = true /\
  section kwargs = Ok (render_block (SectionBlock "Pick a colour"
                 (Some (StaticSelect Single (StrOptions "red" ["green"]) "colour" None)))).
Proof. intros kwargs. split; [reflexivity|]. apply section_decode_sound. reflexivity. Defined.

(** C15: every input block built from a keyword dict that decodes to a
    valid typed input block is that block's rendering: its element
    decoded from the same keyword dict, the [optional] flag when
    [True], and the label. *)
Theorem input_decode_sound (kwargs : dict) (b : block) :
  decode_input kwargs = Some b -> valid_block b = true -> input_type kwargs = Ok (render_block b).
Proof. apply decode_input_sound. Qed.

Lemma input_decode_sound_witness :
  let kwargs := [("label", VStr "Channel"); ("type", VStr "multi_channels_select");
                 ("action_id", VStr "ch"); ("optional", VBool true)] in
  decode_input kwargs =
    Some (InputBlock "Channel" (ChannelsSelect Multi "ch" None None) true) /\
  valid_block (InputBlock "Channel" (ChannelsSelect Multi "ch" None None) true) = true /\
  input_type kwargs = Ok (render_block (InputBlock "Channel" (ChannelsSelect Multi "ch" None None) true)).
Proof.
  intros kwargs. split; [reflexivity|]. split; [reflexivity|].
  apply input_decode_sound; reflexivity.
Defined.
