(* ===== verification/FragmentFacts.v ===== *)
(** * Theorems on the text objects and view fragments

    What [view], [confirm] and the fragments of [TextObjects] promise:
    the results and errors of [view] and [confirm], the text objects
    of a confirmation dialog, and the disjoint keys of the fragments a
    view is merged from. *)

From stdpp Require Import base list strings.
From S2P Require Import Prelude PyValue TextObjects.

Open Scope string_scope.

(** [view] returns the [type]/[title] shell when both keywords are
    given, and otherwise raises [KeyError] for [type] first, then for
    [text]. *)
Theorem view_result (kwargs : dict) :
  view kwargs =
    match dict_lookup "type" kwargs, dict_lookup "text" kwargs with
    | Some ty, Some text => Ok [("type", ty); ("title", VDict (plain_text_object text))]
    | None, _ => Err (KeyError (VStr "type"))
    | Some _, None => Err (KeyError (VStr "text"))
    end.
Proof.
  unfold view, kw, getitem.
  by destruct (dict_lookup "type" kwargs), (dict_lookup "text" kwargs).
Qed.

(** C31: [confirm] raises [KeyError] exactly when one of its four
    keywords is missing, naming the first missing one in the order
    title, text, approve text, deny text. *)
Theorem confirm_error (kwargs : dict) (e : exn) :
  confirm kwargs = Err e <->
  exists k, first_missing kwargs
              ["confirm_title"; "confirm_text"; "confirm_approve_text"; "confirm_deny_text"] = Some k
            /\ e = KeyError (VStr k).
Proof.
  unfold confirm, kw, getitem. simpl.
  repeat case_match; split; intros; simplify_eq; naive_solver.
Qed.

(** C32: the four text objects of a confirmation dialog never carry an
    [emoji] key, unlike the ones [plain_text_object] builds. *)
Theorem confirm_no_emoji (kwargs : dict) (c : dict) :
  confirm kwargs = Ok c ->
  Forall (fun kv => exists o, kv.2 = VDict o /\ dict_lookup "emoji" o = None) c /\
  (forall t, dict_lookup "emoji" (plain_text_object t) = Some (VBool true)).
Proof.
  unfold confirm. intros H. res_inv. subst. split; [|done].
  repeat constructor; eexists; split; reflexivity.
Qed.

Lemma confirm_no_emoji_witness :
  confirm [("confirm_title", VStr "Sure?"); ("confirm_text", VStr "It is final");
           ("confirm_approve_text", VStr "Yes"); ("confirm_deny_text", VStr "No")] =
    Ok [("title", VDict [("type", VStr "plain_text"); ("text", VStr "Sure?")]);
        ("text", VDict [("type", VStr "mrkdwn"); ("text", VStr "It is final")]);
        ("confirm", VDict [("type", VStr "plain_text"); ("text", VStr "Yes")]);
        ("deny", VDict [("type", VStr "plain_text"); ("text", VStr "No")])] /\
  Forall (fun kv => exists o, kv.2 = VDict o /\ dict_lookup "emoji" o = None)
    [("title", VDict [("type", VStr "plain_text"); ("text", VStr "Sure?")]);
     ("text", VDict [("type", VStr "mrkdwn"); ("text", VStr "It is final")]);
     ("confirm", VDict [("type", VStr "plain_text"); ("text", VStr "Yes")]);
     ("deny", VDict [("type", VStr "plain_text"); ("text", VStr "No")])].
Proof.
  split; [reflexivity|].
  eapply proj1, (confirm_no_emoji [("confirm_title", VStr "Sure?"); ("confirm_text", VStr "It is final");
           ("confirm_approve_text", VStr "Yes"); ("confirm_deny_text", VStr "No")]).
  reflexivity.
Defined.

(** C33: the fragments of a view have pairwise distinct keys, so
    merging them never overwrites anything: the merge is the
    concatenation, and its order does not matter for Python's [==]. *)
Theorem view_fragments_disjoint (kwargs : dict) (v : dict) (blocks_list t c : value) :
  view kwargs = Ok v ->
  dict_unpack [v; blocks blocks_list; submit t; close c] =
    (v ++ blocks blocks_list ++ submit t ++ close c)%list /\
  dict_equiv (dict_unpack [v; blocks blocks_list; submit t; close c])
             (dict_unpack [close c; submit t; blocks blocks_list; v]).
Proof.
  intros H. unfold view in H. res_inv. subst.
  split; [reflexivity|]. intros k. simpl. repeat case_decide; simplify_eq; done.
Qed.

Lemma view_fragments_disjoint_witness :
  view [("type", VStr "modal"); ("text", VStr "App")] =
    Ok [("type", VStr "modal"); ("title", VDict (plain_text_object (VStr "App")))] /\
  dict_unpack [[("type", VStr "modal"); ("title", VDict (plain_text_object (VStr "App")))];
               blocks (VList []); submit (VStr "Go"); close (VStr "Quit")] =
    ([("type", VStr "modal"); ("title", VDict (plain_text_object (VStr "App")))] ++
     blocks (VList []) ++ submit (VStr "Go") ++ close (VStr "Quit"))%list.
Proof.
  split; [reflexivity|].
  apply (view_fragments_disjoint [("type", VStr "modal"); ("text", VStr "App")]). reflexivity.
Defined.

