(* ===== verification/OptionFacts.v ===== *)
(** * Theorems on the option-list helper

    What [option_items] of [OptionItems] does with each shape of its
    argument: a list whose first item is a str, a list of records, an
    empty container, a mix, and a str in place of a list. *)

From stdpp Require Import base list strings.
From S2P Require Import Prelude PyValue TextObjects OptionItems.

Open Scope string_scope.

(** C24: when the first item is a [str], every item [x] becomes the
    option [{'text': {'type': 'plain_text', 'text': x, 'emoji': True},
    'value': x}], whatever the type of the later items: a mixed list
    is accepted without complaint. *)
Theorem option_items_first_str (s : string) (rest : list value) :
  option_items (VList (VStr s :: rest)) =
    Ok (map (fun x => VDict [("text", VDict [("type", VStr "plain_text"); ("text", x);
                                             ("emoji", VBool true)]);
                             ("value", x)])
            (VStr s :: rest)).
Proof. reflexivity. Qed.

(** C25: a non-empty list of dicts is converted exactly when every dict
    has [text], [description] and [value]; each becomes the option
    with two mrkdwn text objects and the value, in the input order. *)
Theorem option_items_records (l : list dict) (k : list value) :
  l <> [] ->
  option_items (VList (map VDict l)) = Ok k <->
  Forall2 (fun d o =>
    exists t x v, dict_lookup "text" d = Some t /\ dict_lookup "description" d = Some x /\
                  dict_lookup "value" d = Some v /\
                  o = VDict [("text", VDict (mrkdwn_object t));
                             ("description", VDict (mrkdwn_object x)); ("value", v)]) l k.
Proof.
  destruct l as [|d l]; [done|]. intros _.
  unfold option_items. cbn -[mapM]. change (VDict d :: map VDict l) with (map VDict (d :: l)).
  rewrite mapM_res_Ok, Forall2_fmap_l.
  split; intros H; (eapply Forall2_impl; [exact H|]); intros ??; apply record_option_dict.
Qed.

Lemma option_items_records_witness :
  [("text", VStr "A"); ("description", VStr "d"); ("value", VStr "v")] :: [] <> [] /\
  option_items (VList (map VDict [[("text", VStr "A"); ("description", VStr "d"); ("value", VStr "v")]]))
    = Ok [VDict [("text", VDict (mrkdwn_object (VStr "A")));
                 ("description", VDict (mrkdwn_object (VStr "d"))); ("value", VStr "v")]].
Proof.
  split; [discriminate|].
  apply (option_items_records [[("text", VStr "A"); ("description", VStr "d"); ("value", VStr "v")]]);
    [discriminate|].
  repeat constructor. do 3 eexists. repeat split; reflexivity.
Defined.

(** C29: an empty list or an empty str raises [IndexError] (from
    [items[0]]), a dict raises [KeyError(0)], and a scalar raises
    [TypeError]. *)
Theorem option_items_bad_container :
  option_items (VList []) = Err IndexError /\ option_items (VStr "") = Err IndexError /\
  (forall d, option_items (VDict d) = Err (KeyError (VInt 0))) /\
  (forall x, match x with VList _ | VStr _ | VDict _ => True | _ => option_items x = Err TypeError end).
Proof. split_and!; try done. by intros []. Qed.

(** C34: when the first item is a dict with [text], [description] and
    [value], and so are the items up to a later [str] item, the
    conversion raises [TypeError] at that item (str indices must be
    integers) instead of a shape error naming the mix. *)
Theorem option_items_mixed_record_first (d : dict) (l1 : list dict) (l2 : list value) (s : string) :
  Forall (fun d => is_Some (dict_lookup "text" d) /\ is_Some (dict_lookup "description" d) /\
                   is_Some (dict_lookup "value" d)) (d :: l1) ->
  option_items (VList (VDict d :: map VDict l1 ++ VStr s :: l2)) = Err TypeError.
Proof.
  intros Hl. unfold option_items. cbn -[mapM].
  change (VDict d :: map VDict l1 ++ VStr s :: l2) with (map VDict (d :: l1) ++ VStr s :: l2)%list.
  apply mapM_res_Err_first; [|apply record_option_str].
  apply Forall_fmap, (Forall_impl _ _ _ Hl). intros d' ([t Ht] & [x Hx] & [v Hv]).
  eexists. apply record_option_dict. eauto 10.
Qed.

Lemma option_items_mixed_record_first_witness :
  Forall (fun d => is_Some (dict_lookup "text" d) /\ is_Some (dict_lookup "description" d) /\
                   is_Some (dict_lookup "value" d))
    [[("text", VStr "A"); ("description", VStr "d"); ("value", VStr "v")]] /\
  option_items (VList (VDict [("text", VStr "A"); ("description", VStr "d"); ("value", VStr "v")]
                       :: map VDict [] ++ VStr "b" :: [])) = Err TypeError.
Proof.
  assert (H : Forall (fun d => is_Some (dict_lookup "text" d) /\ is_Some (dict_lookup "description" d) /\
                   is_Some (dict_lookup "value" d))
    [[("text", VStr "A"); ("description", VStr "d"); ("value", VStr "v")]])
    by (repeat constructor; eexists; reflexivity).
  split; [exact H|]. by apply option_items_mixed_record_first.
Defined.

(** C30: a [str] argument in place of a list is iterated character by
    character: every character [c] becomes an option of its own, with
    the one-character str [c] as its text and its value. *)
Theorem option_items_string_arg (s : string) :
  s <> "" ->
  option_items (VStr s) =
    Ok (map (fun c => VDict [("text", VDict [("type", VStr "plain_text");
                                             ("text", VStr (String c EmptyString));
                                             ("emoji", VBool true)]);
                             ("value", VStr (String c EmptyString))])
            (String.list_ascii_of_string s)).
Proof. destruct s as [|c s]; [done|]. cbn. f_equal. by rewrite map_map. Qed.

Lemma option_items_string_arg_witness :
  "ab" <> "" /\
  option_items (VStr "ab") =
    Ok [VDict [("text", VDict [("type", VStr "plain_text"); ("text", VStr "a"); ("emoji", VBool true)]);
               ("value", VStr "a")];
        VDict [("text", VDict [("type", VStr "plain_text"); ("text", VStr "b"); ("emoji", VBool true)]);
               ("value", VStr "b")]].
Proof. split; [discriminate|]. apply (option_items_string_arg "ab"). discriminate. Defined.



